(** * Fake DNS address allocator (app/dns/fakedns/fake.go)

    A shallow embedding of the [Holder] of the fake DNS engine: the pool
    derived from a CIDR string, the allocation cursor (a [big.Int]), and
    the bounded domain-to-address cache, together with the properties of
    the allocator that follow from the code.

    Layout: the Go standard library pieces the holder calls ([math/big],
    [net]), the address type of [common/net], the cache of [common/cache],
    the holder itself, and then the lemmas. *)

From Stdlib Require Import ZArith String Ascii Bool Lia Arith List.
Import ListNotations.
Local Open Scope Z_scope.

(** ** Outcomes of a Go call

    A call either returns, or panics (nil dereference, method call on a nil
    interface), or is still inside its loop when the iteration budget
    given to the model is used up. *)
Inductive result (A : Type) : Type :=
| Done (a : A)
| Panic
| Spin.
Arguments Done {A} a.
Arguments Panic {A}.
Arguments Spin {A}.

Definition isByte (b : Z) : Prop := 0 <= b < 256.

(** ** math/big: the two conversions the holder uses *)
Module BigInt.

(** [Int.SetBytes]: the bytes read as a big-endian unsigned integer. *)
Definition SetBytes (buf : list Z) : Z :=
  fold_left (fun acc b => acc * 256 + b) buf 0.

(** Number of bytes of the shortest big-endian form of [x]. *)
Definition byteLen (x : Z) : nat :=
  if x <=? 0 then O else Z.to_nat (Z.log2 x / 8 + 1).

(** [Int.Bytes]: the absolute value as a big-endian byte slice
    without leading zero bytes; zero gives the empty slice. *)
Definition Bytes (x : Z) : list Z :=
  map (fun i => (Z.abs x / 256 ^ Z.of_nat i) mod 256)
      (rev (seq 0 (byteLen (Z.abs x)))).

End BigInt.

(** ** net: IP, IPMask, IPNet *)
Module GoNet.

Definition IP := list Z.
Definition IPMask := list Z.

Record IPNet : Type := mkIPNet { net_IP : IP; net_Mask : IPMask }.

Definition IPv4len : nat := 4.
Definition IPv6len : nat := 16.

Definition v4InV6Prefix : list Z := [0;0;0;0;0;0;0;0;0;0;255;255].

Definition isZeros (p : list Z) : bool := forallb (fun b => b =? 0) p.
Definition allFF (p : list Z) : bool := forallb (fun b => b =? 255) p.

Fixpoint bytesEqual (a b : list Z) : bool :=
  match a, b with
  | [], [] => true
  | x :: a', y :: b' => (x =? y) && bytesEqual a' b'
  | _, _ => false
  end.

(** [IP.To4]: the 4-byte form of an IPv4 address, [None] for Go's nil. *)
Definition To4 (ip : IP) : option IP :=
  if (length ip =? IPv4len)%nat then Some ip
  else if (length ip =? IPv6len)%nat && isZeros (firstn 10 ip)
          && (nth 10 ip 0 =? 255) && (nth 11 ip 0 =? 255)
       then Some (skipn 12 ip)
       else None.

(** [CIDRMask]: [ones] one bits followed by zero bits, [bits] in all. *)
Fixpoint cidrMaskLoop (l : nat) (n : Z) : IPMask :=
  match l with
  | O => []
  | S l' =>
      if 8 <=? n then 255 :: cidrMaskLoop l' (n - 8)
      else Z.lxor (Z.shiftr 255 n) 255 :: cidrMaskLoop l' 0
  end.

Definition CIDRMask (ones bits : Z) : option IPMask :=
  if negb (bits =? 32) && negb (bits =? 128) then None
  else if (ones <? 0) || (bits <? ones) then None
  else Some (cidrMaskLoop (Z.to_nat (bits / 8)) ones).

(** The inner loop of [simpleMaskLength]:
    [for v&0x80 != 0 { n++; v <<= 1 }] on a byte. *)
Fixpoint countOnes (fuel : nat) (v n : Z) : Z * Z :=
  match fuel with
  | O => (n, v)
  | S f =>
      if Z.land v 128 =? 0 then (n, v)
      else countOnes f (Z.land (Z.shiftl v 1) 255) (n + 1)
  end.

Fixpoint simpleMaskLength (mask : IPMask) (n : Z) : Z :=
  match mask with
  | [] => n
  | v :: rest =>
      if v =? 255 then simpleMaskLength rest (n + 8)
      else
        let '(n', v') := countOnes 8 v n in
        if negb (v' =? 0) then -1
        else if isZeros rest then n' else -1
  end.

(** [IPMask.Size]: (ones, bits), or (0, 0) for a mask not in canonical
    form. *)
Definition Size (m : IPMask) : Z * Z :=
  let ones := simpleMaskLength m 0 in
  let bits := Z.of_nat (length m) * 8 in
  if ones =? -1 then (0, 0) else (ones, bits).

Fixpoint andBytes (ip mask : list Z) : list Z :=
  match ip, mask with
  | a :: ip', m :: mask' => Z.land a m :: andBytes ip' mask'
  | _, _ => []
  end.

(** [IP.Mask]: [None] for Go's nil. *)
Definition Mask (ip : IP) (mask : IPMask) : option IP :=
  let mask :=
    if (length mask =? IPv6len)%nat && (length ip =? IPv4len)%nat
       && allFF (firstn 12 mask)
    then skipn 12 mask else mask in
  let ip :=
    if (length mask =? IPv4len)%nat && (length ip =? IPv6len)%nat
       && bytesEqual (firstn 12 ip) v4InV6Prefix
    then skipn 12 ip else ip in
  if (length ip =? length mask)%nat then Some (andBytes ip mask) else None.

(** [networkNumberAndMask]; the pair of nil slices is ([], []). *)
Definition networkNumberAndMask (n : IPNet) : IP * IPMask :=
  let ip0 := match To4 (net_IP n) with Some x => Some x
             | None => if (length (net_IP n) =? IPv6len)%nat
                       then Some (net_IP n) else None
             end in
  match ip0 with
  | None => ([], [])
  | Some ip =>
      let m := net_Mask n in
      if (length m =? IPv4len)%nat then
        if (length ip =? IPv4len)%nat then (ip, m) else ([], [])
      else if (length m =? IPv6len)%nat then
        if (length ip =? IPv4len)%nat then (ip, skipn 12 m) else (ip, m)
      else ([], [])
  end.

Fixpoint containsLoop (nn m ip : list Z) : bool :=
  match nn, m, ip with
  | a :: nn', b :: m', c :: ip' =>
      if negb (Z.land a b =? Z.land c b) then false
      else containsLoop nn' m' ip'
  | _, _, _ => true
  end.

(** [IPNet.Contains]. *)
Definition Contains (n : IPNet) (ip : IP) : bool :=
  let '(nn, m) := networkNumberAndMask n in
  let ip := match To4 ip with Some x => x | None => ip end in
  if negb (length ip =? length nn)%nat then false
  else containsLoop nn m ip.

(** *** ParseCIDR, for dotted-decimal IPv4 prefixes

    The text of the address is read as [netip.ParseAddr] reads an IPv4
    literal and the prefix length as [dtoi] reads it.  IPv6 literals are
    outside this model: [initialize] below takes the parser as an
    argument, and this one is the instance used for IPv4 pools. *)

Definition isDigit (c : ascii) : bool :=
  let n := Z.of_nat (nat_of_ascii c) in (48 <=? n) && (n <=? 57).
Definition digitVal (c : ascii) : Z := Z.of_nat (nat_of_ascii c) - 48.
Definition isDot (c : ascii) : bool := (nat_of_ascii c =? 46)%nat.
Definition isSlash (c : ascii) : bool := (nat_of_ascii c =? 47)%nat.

(** [s[:i], s[i+1:]] at the first '/', as [bytealg.IndexByteString]. *)
Fixpoint cutSlash (s : list ascii) : option (list ascii * list ascii) :=
  match s with
  | [] => None
  | c :: s' =>
      if isSlash c then Some ([], s')
      else match cutSlash s' with
           | Some (a, m) => Some (c :: a, m)
           | None => None
           end
  end.

Definition big : Z := 16777215.

(** [dtoi]: the decimal prefix of [s]; the rest of [s] is returned in
    place of the index. *)
Fixpoint dtoiLoop (s : list ascii) (n : Z) (i : nat)
  : Z * nat * list ascii * bool :=
  match s with
  | c :: s' =>
      if isDigit c then
        let n' := n * 10 + digitVal c in
        if big <=? n' then (big, i, s, false)
        else dtoiLoop s' n' (S i)
      else if (i =? 0)%nat then (0, O, s, false) else (n, i, s, true)
  | [] => if (i =? 0)%nat then (0, O, s, false) else (n, i, s, true)
  end.

Definition dtoi (s : list ascii) : Z * nat * list ascii * bool :=
  dtoiLoop s 0 O.

(** The loop of [parseIPv4]: [fields] holds the octets read so far (its
    length is [pos]), [atStart] is [i == 0] and [prevDot] is
    [s[i-1] == '.']. *)
Fixpoint parseIPv4Loop (s : list ascii) (atStart prevDot : bool)
         (fields : list Z) (val : Z) (digLen : nat) : option (list Z) :=
  match s with
  | [] =>
      if (length fields <? 3)%nat then None else Some (fields ++ [val])
  | c :: s' =>
      if isDigit c then
        if (digLen =? 1)%nat && (val =? 0) then None
        else
          let val' := val * 10 + digitVal c in
          if 255 <? val' then None
          else parseIPv4Loop s' false false fields val' (S digLen)
      else if isDot c then
        if atStart || (match s' with [] => true | _ => false end) || prevDot
        then None
        else if (length fields =? 3)%nat then None
        else parseIPv4Loop s' false true (fields ++ [val]) 0 O
      else None
  end.

Definition parseIPv4 (s : list ascii) : option (list Z) :=
  parseIPv4Loop s true false [] 0 O.

Definition ParseCIDR (s : string) : option (IP * IPNet) :=
  match cutSlash (list_ascii_of_string s) with
  | None => None
  | Some (addr, mask) =>
      match parseIPv4 addr with
      | None => None
      | Some f =>
          let '(n, _, rest, ok) := dtoi mask in
          if negb ok || negb (match rest with [] => true | _ => false end)
             || (n <? 0) || (32 <? n)
          then None
          else
            match CIDRMask n 32 with
            | None => None
            | Some m =>
                let addr16 := v4InV6Prefix ++ f in
                match Mask addr16 m with
                | None => None
                | Some base => Some (addr16, mkIPNet base m)
                end
            end
      end
  end.

End GoNet.

(** ** common/net: addresses *)
Module Net.

Inductive AddressFamily : Type :=
| AddressFamilyIPv4
| AddressFamilyIPv6
| AddressFamilyDomain.

Definition IsIP (af : AddressFamily) : bool :=
  match af with
  | AddressFamilyIPv4 | AddressFamilyIPv6 => true
  | AddressFamilyDomain => false
  end.

Definition IsIPv4 (af : AddressFamily) : bool :=
  match af with AddressFamilyIPv4 => true | _ => false end.

(** Modelled from the spec: the [Address] interface of common/net is not
    part of the sources at hand.  The spec speaks of a fake address as a
    4-byte IPv4 value next to values of other families; the interface has
    IPv4, IPv6 and domain values, and [nilAddress] stands for the nil
    interface value. *)
Inductive Address : Type :=
| ipv4Address (b : list Z)
| ipv6Address (b : list Z)
| domainAddress (d : string)
| nilAddress.

(** Modelled from the spec: [net.IPAddress], which turns the bytes of the
    cursor into an address (the spec's [cursor.asAddress()]).  Four bytes
    give an IPv4 address, sixteen an IPv6 address unless they are an IPv4
    address in IPv6 form; any other length is not an address and gives
    nil. *)
Definition IPAddress (ip : list Z) : Address :=
  if (length ip =? GoNet.IPv4len)%nat then ipv4Address ip
  else if (length ip =? GoNet.IPv6len)%nat then
    if GoNet.isZeros (firstn 10 ip)
       && (nth 10 ip 0 =? 255) && (nth 11 ip 0 =? 255)
    then ipv4Address (skipn 12 ip)
    else ipv6Address ip
  else nilAddress.

(** [Address.Family()]; [None] is the panic of a method call on nil. *)
Definition Family (a : Address) : option AddressFamily :=
  match a with
  | ipv4Address _ => Some AddressFamilyIPv4
  | ipv6Address _ => Some AddressFamilyIPv6
  | domainAddress _ => Some AddressFamilyDomain
  | nilAddress => None
  end.

(** [Address.IP()]; [None] is a panic (a domain has no IP). *)
Definition IP (a : Address) : option GoNet.IP :=
  match a with
  | ipv4Address b => Some b
  | ipv6Address b => Some b
  | _ => None
  end.

Definition Address_eq_dec (a b : Address) : {a = b} + {a <> b}.
Proof.
  decide equality;
    try apply (list_eq_dec Z.eq_dec); apply string_dec.
Defined.

End Net.

(** ** common/cache: the bounded bidirectional cache *)
Module Cache.
Section Lru.
Context {K V : Type}.
Variable Keq : forall x y : K, {x = y} + {x <> y}.
Variable Veq : forall x y : V, {x = y} + {x <> y}.

(** Modelled from the spec: the [Lru] of common/cache is not part of
    the sources at hand.  Following section 4.2 of the spec, the cache
    has a capacity fixed at construction and holds its live pairs in
    order of forward-access recency, the most recently used first; the
    reverse index is derived from the same pairs, so that the two
    directions cannot disagree. *)
Record Lru : Type := mkLru { capacity : Z; entries : list (K * V) }.

Definition NewLru (cap : Z) : Lru := mkLru cap [].

Fixpoint lookup (k : K) (l : list (K * V)) : option V :=
  match l with
  | [] => None
  | (k', v) :: l' => if Keq k k' then Some v else lookup k l'
  end.

Fixpoint rlookup (v : V) (l : list (K * V)) : option K :=
  match l with
  | [] => None
  | (k, v') :: l' => if Veq v v' then Some k else rlookup v l'
  end.

Fixpoint removeKey (k : K) (l : list (K * V)) : list (K * V) :=
  match l with
  | [] => []
  | (k', v) :: l' =>
      if Keq k k' then removeKey k l' else (k', v) :: removeKey k l'
  end.

Fixpoint replaceValue (k : K) (v : V) (l : list (K * V)) : list (K * V) :=
  match l with
  | [] => []
  | (k', v') :: l' =>
      if Keq k k' then (k', v) :: l' else (k', v') :: replaceValue k v l'
  end.

(** Modelled from the spec: [get(key)], the forward lookup; a hit makes
    the entry the most recently used, a miss changes nothing. *)
Definition Get (c : Lru) (k : K) : option V * Lru :=
  match lookup k (entries c) with
  | Some v =>
      (Some v, mkLru (capacity c) ((k, v) :: removeKey k (entries c)))
  | None => (None, c)
  end.

(** Modelled from the spec: [reverseLookup(value)], the live key mapped
    to the value; the recency order is not touched. *)
Definition GetKeyFromValue (c : Lru) (v : V) : option K :=
  rlookup v (entries c).

(** Modelled from the spec: [put(key, value)] inserts or replaces the
    mapping of the key; when the key is new and the cache is at
    capacity, the least recently used pair is evicted before the
    insertion, and with it both of its directions. *)
Definition Put (c : Lru) (k : K) (v : V) : Lru :=
  match lookup k (entries c) with
  | Some _ => mkLru (capacity c) (replaceValue k v (entries c))
  | None =>
      let kept :=
        if capacity c <=? Z.of_nat (length (entries c))
        then removelast (entries c) else entries c in
      mkLru (capacity c) ((k, v) :: kept)
  end.

End Lru.
Arguments Lru : clear implicits.
End Cache.

(** ** The holder *)

(** The two fields of the configuration message that the holder reads. *)
Record FakeDnsPool : Type := mkFakeDnsPool { IpPool : string; LruSize : Z }.

Definition Lru : Type := Cache.Lru string Net.Address.

Record Holder : Type := mkHolder {
  domainToIP : option Lru;
  nextIP : option Z;
  ipRange : option GoNet.IPNet;
  config : option FakeDnsPool
}.

Definition cacheGet : Lru -> string -> option Net.Address * Lru :=
  Cache.Get string_dec.
Definition cacheGetKeyFromValue : Lru -> Net.Address -> option string :=
  Cache.GetKeyFromValue Net.Address_eq_dec.
Definition cachePut : Lru -> string -> Net.Address -> Lru :=
  Cache.Put string_dec.

(** A Go [error]: [None] is nil, otherwise the message. *)
Definition error : Type := option string.

Definition Close (holder : Holder) : Holder * error :=
  (mkHolder None None None (config holder), None).

Definition NewFakeDNSHolderConfigOnly (conf : option FakeDnsPool)
  : Holder * error :=
  (mkHolder None None None conf, None).

(** [math.Log2(float64(lruSize)) >= float64(rooms)], on the reals: the
    logarithm of zero is minus infinity and that of a negative number is
    not a number, and neither compares greater or equal; for a positive
    size the test says [2 ^ rooms <= lruSize].  For a range of at most 32
    host bits, which is every IPv4 range, the double-precision computation
    gives this answer for every [int]; the rounding that can occur on
    IPv6 ranges of 49 host bits and more is not modelled. *)
Definition log2AtLeast (lruSize rooms : Z) : bool :=
  (0 <? lruSize) && (2 ^ rooms <=? lruSize).

Definition initializeWith (parseCIDR : string -> option (GoNet.IP * GoNet.IPNet))
           (holder : Holder) (ipPoolCidr : string) (lruSize : Z)
  : Holder * error :=
  match parseCIDR ipPoolCidr with
  | None =>
      (holder, Some "Unable to parse CIDR for Fake DNS IP assignment"%string)
  | Some (ipaddr, ipRange) =>
      let currentIP :=
        match GoNet.To4 ipaddr with
        | Some ip4 => BigInt.SetBytes ip4
        | None => BigInt.SetBytes ipaddr
        end in
      let '(ones, bits) := GoNet.Size (GoNet.net_Mask ipRange) in
      let rooms := bits - ones in
      if log2AtLeast lruSize rooms
      then (holder, Some "LRU size is bigger than subnet size"%string)
      else (mkHolder (Some (Cache.NewLru lruSize)) (Some currentIP)
                     (Some ipRange) (config holder), None)
  end.

Definition initialize : Holder -> string -> Z -> Holder * error :=
  initializeWith GoNet.ParseCIDR.

(** [initializeFromConfig] and [Start] read the two fields of the
    configuration without a nil check and call [initialize]; as for
    [initialize], the parser is an argument of the general form. *)
Definition initializeFromConfigWith
           (parseCIDR : string -> option (GoNet.IP * GoNet.IPNet))
           (holder : Holder) : result (Holder * error) :=
  match config holder with
  | None => Panic
  | Some conf =>
      Done (initializeWith parseCIDR holder (IpPool conf) (LruSize conf))
  end.

Definition initializeFromConfig : Holder -> result (Holder * error) :=
  initializeFromConfigWith GoNet.ParseCIDR.

Definition StartWith (parseCIDR : string -> option (GoNet.IP * GoNet.IPNet))
           (holder : Holder) : result (Holder * error) :=
  initializeFromConfigWith parseCIDR holder.

Definition Start : Holder -> result (Holder * error) :=
  StartWith GoNet.ParseCIDR.

Definition NewFakeDNSHolder : option Holder * error :=
  let '(holder, _) := NewFakeDNSHolderConfigOnly None in
  match initialize holder "240.0.0.0/8" 65535 with
  | (_, Some err) => (None, Some err)
  | (holder', None) => (Some holder', None)
  end.

(** One turn of the cursor: add one, and go back to the base of the range
    when the sum is not contained in it. *)
Definition advance (net : GoNet.IPNet) (next : Z) : Z :=
  let next' := next + 1 in
  if negb (GoNet.Contains net (BigInt.Bytes next'))
  then BigInt.SetBytes (GoNet.net_IP net)
  else next'.

(** The [for] loop of [GetFakeIPForDomain]; [fuel] bounds the number of
    iterations the model follows, and [None] says the loop has not left
    after that many. *)
Fixpoint allocLoop (fuel : nat) (net : GoNet.IPNet) (cache : Lru) (next : Z)
  : option (Net.Address * Z) :=
  match fuel with
  | O => None
  | S fuel' =>
      let ip := Net.IPAddress (BigInt.Bytes next) in
      let next' := advance net next in
      match cacheGetKeyFromValue cache ip with
      | None => Some (ip, next')
      | Some _ => allocLoop fuel' net cache next'
      end
  end.

Definition GetFakeIPForDomain (fuel : nat) (holder : Holder) (domain : string)
  : result (list Net.Address * Holder) :=
  match domainToIP holder with
  | None => Panic
  | Some cache =>
      match cacheGet cache domain with
      | (Some v, cache') =>
          (* v.(net.Address) panics on the nil interface value *)
          match v with
          | Net.nilAddress => Panic
          | _ => Done ([v], mkHolder (Some cache') (nextIP holder)
                                     (ipRange holder) (config holder))
          end
      | (None, _) =>
          match nextIP holder, ipRange holder with
          | Some next, Some net =>
              match allocLoop fuel net cache next with
              | None => Spin
              | Some (ip, next') =>
                  Done ([ip], mkHolder (Some (cachePut cache domain ip))
                                       (Some next') (Some net)
                                       (config holder))
              end
          | _, _ => Panic
          end
      end
  end.

Definition GetDomainFromFakeDNS (holder : Holder) (ip : Net.Address)
  : result string :=
  match Net.Family ip with
  | None => Panic
  | Some af =>
      if negb (Net.IsIP af) then Done ""%string
      else
        match ipRange holder, Net.IP ip with
        | Some net, Some b =>
            if negb (GoNet.Contains net b) then Done ""%string
            else
              match domainToIP holder with
              | None => Panic
              | Some cache =>
                  match cacheGetKeyFromValue cache ip with
                  | Some k => Done k
                  | None => Done ""%string
                  end
              end
        | _, _ => Panic
        end
  end.

(** ** Sequences of calls *)
Inductive call : Type :=
| CallGetFakeIPForDomain (domain : string)
| CallGetDomainFromFakeDNS (ip : Net.Address).

Inductive reply : Type :=
| ReplyIPs (ips : list Net.Address)
| ReplyDomain (domain : string).

Fixpoint run (fuel : nat) (holder : Holder) (calls : list call)
  : result (list reply * Holder) :=
  match calls with
  | [] => Done ([], holder)
  | CallGetFakeIPForDomain d :: rest =>
      match GetFakeIPForDomain fuel holder d with
      | Done (ips, holder') =>
          match run fuel holder' rest with
          | Done (rs, h) => Done (ReplyIPs ips :: rs, h)
          | Panic => Panic
          | Spin => Spin
          end
      | Panic => Panic
      | Spin => Spin
      end
  | CallGetDomainFromFakeDNS a :: rest =>
      match GetDomainFromFakeDNS holder a with
      | Done d =>
          match run fuel holder rest with
          | Done (rs, h) => Done (ReplyDomain d :: rs, h)
          | Panic => Panic
          | Spin => Spin
          end
      | Panic => Panic
      | Spin => Spin
      end
  end.

(** The live pairs of a holder, most recently used first. *)
Definition live (holder : Holder) : list (string * Net.Address) :=
  match domainToIP holder with
  | Some cache => Cache.entries cache
  | None => []
  end.

Definition liveDomains (holder : Holder) : list string := map fst (live holder).
Definition liveAddresses (holder : Holder) : list Net.Address :=
  map snd (live holder).

(** A holder fresh from [NewFakeDNSHolderConfigOnly]. *)
Definition blank (conf : option FakeDnsPool) : Holder :=
  fst (NewFakeDNSHolderConfigOnly conf).

(** ** Notions used in the statements *)

(** The live pairs form a partial bijection: a domain has one address and
    an address has one domain. *)
Definition partialBijection (l : list (string * Net.Address)) : Prop :=
  (forall d a1 a2, In (d, a1) l -> In (d, a2) l -> a1 = a2) /\
  (forall d1 d2 a, In (d1, a) l -> In (d2, a) l -> d1 = d2).

(** The eviction policy in the words of the spec, on domains alone: a
    forward access to a live domain makes it the most recently used; a new
    domain is put in front, after the least recently used one has been
    dropped when the cache is at capacity. *)
Definition specAccess (cap : Z) (l : list string) (d : string) : list string :=
  if in_dec string_dec d l then d :: remove string_dec d l
  else d :: (if cap <=? Z.of_nat (length l) then removelast l else l).

Definition specLiveDomains (cap : Z) (ds : list string) : list string :=
  fold_left (specAccess cap) ds [].

(** Number of host bits and of addresses of a range, and its first
    address as a number. *)
Definition rooms (net : GoNet.IPNet) : Z :=
  let '(ones, bits) := GoNet.Size (GoNet.net_Mask net) in bits - ones.
Definition poolSize (net : GoNet.IPNet) : Z := 2 ^ rooms net.
Definition poolBase (net : GoNet.IPNet) : Z :=
  BigInt.SetBytes (GoNet.net_IP net).

(** The four bytes of an IPv4 address given as a number. *)
Definition be4 (x : Z) : list Z :=
  [(x / 2 ^ 24) mod 256; (x / 2 ^ 16) mod 256; (x / 2 ^ 8) mod 256; x mod 256].

(** The address values that [net.IPAddress] can produce: an IPv4 address
    has four bytes, an IPv6 address sixteen that are not an IPv4 address in
    IPv6 form. *)
Definition validAddress (a : Net.Address) : Prop :=
  match a with
  | Net.ipv4Address b => length b = 4%nat
  | Net.ipv6Address b => length b = 16%nat /\ GoNet.To4 b = None
  | Net.domainAddress _ => True
  | Net.nilAddress => False
  end.

(** An IPv4 range as [ParseCIDR] builds it from the four bytes [f] of the
    written address and the prefix length [ones]: the mask of that length
    and the address under the mask. *)
Definition v4Pool (net : GoNet.IPNet) (ones : Z) (f : list Z) : Prop :=
  0 <= ones <= 32 /\ length f = 4%nat /\ Forall isByte f /\
  net = GoNet.mkIPNet (GoNet.andBytes f (GoNet.cidrMaskLoop 4 ones))
                      (GoNet.cidrMaskLoop 4 ones).

(** The cursor is, as a number, an address of the range. *)
Definition inPool (net : GoNet.IPNet) (x : Z) : Prop :=
  poolBase net <= x < poolBase net + poolSize net.

(** The holder has this range and its cursor is an address of it. *)
Definition cursorInPool (net : GoNet.IPNet) (h : Holder) : Prop :=
  ipRange h = Some net /\ exists c, nextIP h = Some c /\ inPool net c.

(** Every live address is an IPv4 address of the range. *)
Definition addressesInPool (net : GoNet.IPNet) (h : Holder) : Prop :=
  forall a, In a (liveAddresses h) ->
            exists x, inPool net x /\ a = Net.ipv4Address (be4 x).

(** What a returning call did: either a hit, which moves the pair to the
    front and leaves the cursor alone, or a miss, which puts the first
    free candidate in front of the pairs that are kept. *)
Inductive allocated (fuel : nat) (h : Holder) (d : string)
  : list Net.Address -> Holder -> Prop :=
| alloc_hit cache v :
    domainToIP h = Some cache ->
    Cache.lookup string_dec d (Cache.entries cache) = Some v ->
    v <> Net.nilAddress ->
    allocated fuel h d [v]
      (mkHolder
         (Some (Cache.mkLru (Cache.capacity cache)
                  ((d, v) :: Cache.removeKey string_dec d (Cache.entries cache))))
         (nextIP h) (ipRange h) (config h))
| alloc_miss cache next net ip next' :
    domainToIP h = Some cache ->
    Cache.lookup string_dec d (Cache.entries cache) = None ->
    nextIP h = Some next ->
    ipRange h = Some net ->
    allocLoop fuel net cache next = Some (ip, next') ->
    allocated fuel h d [ip]
      (mkHolder
         (Some (Cache.mkLru (Cache.capacity cache)
                  ((d, ip) ::
                     if Cache.capacity cache
                          <=? Z.of_nat (length (Cache.entries cache))
                     then removelast (Cache.entries cache)
                     else Cache.entries cache)))
         (Some next') (Some net) (config h)).

(** Neither the live domains nor the live addresses repeat. *)
Definition distinctPairs (h : Holder) : Prop :=
  NoDup (liveDomains h) /\ NoDup (liveAddresses h).

(** The cache has this capacity and holds no more pairs than that. *)
Definition withinCapacity (cap : Z) (h : Holder) : Prop :=
  exists cache, domainToIP h = Some cache /\ Cache.capacity cache = cap /\
                Z.of_nat (length (Cache.entries cache)) <= cap.

(** The invariants of a holder on an IPv4 pool, together. *)
Record sound (net : GoNet.IPNet) (cap : Z) (h : Holder) : Prop := mkSound {
  sound_cursor : cursorInPool net h;
  sound_addresses : addressesInPool net h;
  sound_pairs : distinctPairs h;
  sound_capacity : withinCapacity cap h
}.

(** ** Sample sessions *)

(** The holder and the replies that a run ends with (the blank holder and
    no replies when it does not return). *)
Definition finalHolder (r : result (list reply * Holder)) : Holder :=
  match r with Done (_, h) => h | _ => blank None end.
Definition repliesOf (r : result (list reply * Holder)) : list reply :=
  match r with Done (rs, _) => rs | _ => [] end.

(** A pool of four addresses with room for two domains, and a short
    session on it. *)
Definition smallHolder : Holder :=
  fst (initialize (blank None) "240.0.0.0/30" 2).

Definition smallSession : list call :=
  [CallGetFakeIPForDomain "a.com"; CallGetFakeIPForDomain "b.com";
   CallGetDomainFromFakeDNS (Net.ipv4Address [240; 0; 0; 1]);
   CallGetFakeIPForDomain "a.com"; CallGetFakeIPForDomain "c.com"].

Definition evictingSession : list call :=
  map CallGetFakeIPForDomain ["a.com"; "b.com"; "a.com"; "c.com"]%string.

Definition wrapSession : list call :=
  map CallGetFakeIPForDomain ["a.com"; "b.com"; "c.com"; "d.com"]%string.

(** The pool "0.0.0.0/8" with room for two domains, and the holder after
    one allocation on it. *)
Definition zeroPoolHolder : Holder :=
  fst (initialize (blank None) "0.0.0.0/8" 2).

Definition stuckHolder : Holder :=
  finalHolder (run 1 zeroPoolHolder [CallGetFakeIPForDomain "a.com"]).

(** The IPv6 range "fd00::/8": its address, its mask, and a parser that
    knows this one string next to the IPv4 ones, returning for it what
    [net.ParseCIDR] returns. *)
Definition fd00 : GoNet.IP := [253; 0; 0; 0; 0; 0; 0; 0; 0; 0; 0; 0; 0; 0; 0; 0].

Definition fd00Net : GoNet.IPNet :=
  GoNet.mkIPNet fd00 [255; 0; 0; 0; 0; 0; 0; 0; 0; 0; 0; 0; 0; 0; 0; 0].

Definition parseWithFd00 (s : string) : option (GoNet.IP * GoNet.IPNet) :=
  if string_dec s "fd00::/8" then Some (fd00, fd00Net) else GoNet.ParseCIDR s.

(** ** Further notions and samples *)

(** The replies of [n] allocations that give out [x], [x + 1], ... in
    turn. *)
Fixpoint consecutive (x : Z) (n : nat) : list reply :=
  match n with
  | O => []
  | S n' => ReplyIPs [Net.ipv4Address (be4 x)] :: consecutive (x + 1) n'
  end.

(** The cursor after a turn, by the numbers alone: one more when that is
    an address of the range with four bytes in its shortest form, the base
    of the range otherwise. *)
Definition turn (net : GoNet.IPNet) (x : Z) : Z :=
  if (2 ^ 24 <=? x + 1) && (x + 1 <? poolBase net + poolSize net)
  then x + 1 else poolBase net.



(** A pool written with an address that is not its first one. *)
Definition offsetHolder : Holder :=
  fst (initialize (blank None) "240.0.0.5/29" 3).

Definition threeDomains : list string := ["a.com"; "b.com"; "c.com"]%string.


(** The replies of [n] allocations that follow the walk of the cursor
    from [x], around the end of the range. *)
Fixpoint walk (net : GoNet.IPNet) (x : Z) (n : nat) : list reply :=
  match n with
  | O => []
  | S n' => ReplyIPs [Net.ipv4Address (be4 x)] :: walk net (turn net x) n'
  end.

(** The small pool with the capacities zero and minus five, which
    [initialize] accepts. *)
Definition zeroCapacityHolder : Holder :=
  fst (initialize (blank None) "240.0.0.0/30" 0).

Definition negativeCapacityHolder : Holder :=
  fst (initialize (blank None) "240.0.0.0/30" (-5)).

(** The range "0.0.0.0/7" written with its last address but one, with
    room for two domains. *)
Definition lowPoolHolder : Holder :=
  fst (initialize (blank None) "1.255.255.254/7" 2).

Definition lowPool : GoNet.IPNet := GoNet.mkIPNet [0; 0; 0; 0] [254; 0; 0; 0].

(** The small pool written with its last address. *)
Definition topHolder : Holder :=
  fst (initialize (blank None) "240.0.0.3/30" 2).

(** A session on the small pool after which the cursor stands on an
    address that is still live. *)
Definition skippingSession : list call :=
  map CallGetFakeIPForDomain
    ["a.com"; "b.com"; "a.com"; "c.com"; "a.com"; "d.com"]%string.
(** ** The cache *)
Section LruFacts.
Context {K V : Type}.
Variable Keq : forall x y : K, {x = y} + {x <> y}.
Variable Veq : forall x y : V, {x = y} + {x <> y}.

Lemma lookup_In k v (l : list (K * V)) : Cache.lookup Keq k l = Some v -> In (k, v) l.
Proof.
  induction l as [|[k' v'] l IH]; simpl; [discriminate|].
  destruct (Keq k k') as [->|_]; intros H.
  - injection H as ->. now left.
  - right. auto.
Qed.

Lemma lookup_None k (l : list (K * V)) :
  Cache.lookup Keq k l = None -> ~ In k (map fst l).
Proof.
  induction l as [|[k' v'] l IH]; simpl; [tauto|].
  destruct (Keq k k') as [->|Hne]; [discriminate|].
  intros H [E|Hin]; [congruence | now apply IH].
Qed.

Lemma lookup_not_In k (l : list (K * V)) :
  ~ In k (map fst l) -> Cache.lookup Keq k l = None.
Proof.
  induction l as [|[k' v'] l IH]; simpl; [reflexivity|].
  intros H. destruct (Keq k k') as [->|Hne]; [tauto|]. apply IH. tauto.
Qed.

Lemma rlookup_In v k (l : list (K * V)) : Cache.rlookup Veq v l = Some k -> In (k, v) l.
Proof.
  induction l as [|[k' v'] l IH]; simpl; [discriminate|].
  destruct (Veq v v') as [->|_]; intros H.
  - injection H as ->. now left.
  - right. auto.
Qed.

Lemma rlookup_None v (l : list (K * V)) :
  Cache.rlookup Veq v l = None <-> ~ In v (map snd l).
Proof.
  induction l as [|[k' v'] l IH]; simpl; [tauto|].
  destruct (Veq v v') as [->|Hne].
  - split; [discriminate | tauto].
  - rewrite IH. split; [|tauto]. intros H [E|Hin]; [congruence | tauto].
Qed.

Lemma removeKey_In k k' v (l : list (K * V)) :
  In (k', v) (Cache.removeKey Keq k l) <-> In (k', v) l /\ k' <> k.
Proof.
  induction l as [|[k0 v0] l IH]; simpl; [tauto|].
  destruct (Keq k k0) as [->|Hne]; simpl; rewrite IH; clear IH.
  - split; [tauto|]. intros [[E|H] Hk]; [congruence | tauto].
  - split; [|tauto].
    intros [E|[H Hk]]; [|tauto]. injection E as -> ->. split; auto.
Qed.

Lemma removeKey_keys k (l : list (K * V)) :
  map fst (Cache.removeKey Keq k l) = remove Keq k (map fst l).
Proof.
  induction l as [|[k0 v0] l IH]; simpl; [reflexivity|].
  destruct (Keq k k0); simpl; now rewrite IH.
Qed.

Lemma removeKey_id k (l : list (K * V)) :
  ~ In k (map fst l) -> Cache.removeKey Keq k l = l.
Proof.
  induction l as [|[k0 v0] l IH]; simpl; [reflexivity|].
  intros H. destruct (Keq k k0) as [->|Hne]; [tauto|].
  f_equal. apply IH. tauto.
Qed.

Lemma removeKey_absent k (l : list (K * V)) :
  ~ In k (map fst (Cache.removeKey Keq k l)).
Proof. rewrite removeKey_keys. apply remove_In. Qed.

Lemma removeKey_length k (l : list (K * V)) :
  (length (Cache.removeKey Keq k l) <= length l)%nat.
Proof.
  induction l as [|[k0 v0] l IH]; simpl; [lia|].
  destruct (Keq k k0); simpl; lia.
Qed.

Lemma removeKey_length_hit k v (l : list (K * V)) :
  Cache.lookup Keq k l = Some v -> (S (length (Cache.removeKey Keq k l)) <= length l)%nat.
Proof.
  induction l as [|[k0 v0] l IH]; simpl; [discriminate|].
  destruct (Keq k k0); simpl; intros H.
  - pose proof (removeKey_length k l). lia.
  - apply IH in H. lia.
Qed.

Lemma NoDup_keys_removeKey k (l : list (K * V)) :
  NoDup (map fst l) -> NoDup (map fst (Cache.removeKey Keq k l)).
Proof.
  induction l as [|[k0 v0] l IH]; simpl; [auto|].
  intros H. inversion H as [|? ? Hn Hd]; subst.
  destruct (Keq k k0); simpl; [auto|].
  constructor; [|auto].
  rewrite removeKey_keys. intros Hin. apply in_remove in Hin. tauto.
Qed.

Lemma In_values_removeKey k v (l : list (K * V)) :
  In v (map snd (Cache.removeKey Keq k l)) -> In v (map snd l).
Proof.
  rewrite !in_map_iff. intros [[k' v'] [E H]].
  apply removeKey_In in H. exists (k', v'). tauto.
Qed.

Lemma NoDup_values_removeKey k (l : list (K * V)) :
  NoDup (map snd l) -> NoDup (map snd (Cache.removeKey Keq k l)).
Proof.
  induction l as [|[k0 v0] l IH]; simpl; [auto|].
  intros H. inversion H as [|? ? Hn Hd]; subst.
  destruct (Keq k k0); simpl; [auto|].
  constructor; [|auto].
  intros Hin. apply In_values_removeKey in Hin. tauto.
Qed.

Lemma NoDup_values_unique (l : list (K * V)) k1 k2 v :
  NoDup (map snd l) -> In (k1, v) l -> In (k2, v) l -> k1 = k2.
Proof.
  induction l as [|[k0 v0] l IH]; simpl; [tauto|].
  intros H. inversion H as [|? ? Hn Hd]; subst.
  intros [E1|H1] [E2|H2].
  - congruence.
  - injection E1 as -> ->. exfalso. apply Hn.
    apply in_map_iff. now exists (k2, v).
  - injection E2 as -> ->. exfalso. apply Hn.
    apply in_map_iff. now exists (k1, v).
  - auto.
Qed.

Lemma NoDup_keys_unique (l : list (K * V)) k v1 v2 :
  NoDup (map fst l) -> In (k, v1) l -> In (k, v2) l -> v1 = v2.
Proof.
  induction l as [|[k0 v0] l IH]; simpl; [tauto|].
  intros H. inversion H as [|? ? Hn Hd]; subst.
  intros [E1|H1] [E2|H2].
  - congruence.
  - injection E1 as -> ->. exfalso. apply Hn.
    apply in_map_iff. now exists (k, v2).
  - injection E2 as -> ->. exfalso. apply Hn.
    apply in_map_iff. now exists (k, v1).
  - auto.
Qed.

Lemma rlookup_unique (l : list (K * V)) k v :
  NoDup (map snd l) -> In (k, v) l -> Cache.rlookup Veq v l = Some k.
Proof.
  intros Hnd Hin. destruct (Cache.rlookup Veq v l) as [k'|] eqn:E.
  - apply rlookup_In in E. f_equal.
    eapply NoDup_values_unique; eauto.
  - apply rlookup_None in E. exfalso. apply E.
    apply in_map_iff. now exists (k, v).
Qed.

Lemma removelast_incl {A} (l : list A) : incl (removelast l) l.
Proof.
  induction l as [|a [|b l] IH]; simpl in *; [easy | easy |].
  intros x [->|H]; [now left | right; now apply IH].
Qed.

Lemma removelast_map {A B} (f : A -> B) (l : list A) :
  map f (removelast l) = removelast (map f l).
Proof.
  induction l as [|a [|b l] IH]; simpl in *; [easy | easy |].
  now rewrite IH.
Qed.

Lemma NoDup_removelast {A} (l : list A) : NoDup l -> NoDup (removelast l).
Proof.
  induction l as [|a [|b l] IH]; simpl in *; [easy | constructor |].
  intros H. inversion H as [|? ? Hn Hd]; subst.
  constructor; [|auto].
  intros Hin. apply Hn. now apply (removelast_incl (b :: l)).
Qed.

Lemma removelast_length_le {A} (l : list A) :
  (length (removelast l) <= Nat.pred (length l))%nat.
Proof.
  rewrite removelast_firstn_len, length_firstn. lia.
Qed.

(** The effect of [Get] and [Put] on the two projections. *)
Lemma Get_hit (c : Cache.Lru K V) k v c' :
  Cache.Get Keq c k = (Some v, c') ->
  Cache.lookup Keq k (Cache.entries c) = Some v /\
  c' = Cache.mkLru (Cache.capacity c) ((k, v) :: Cache.removeKey Keq k (Cache.entries c)).
Proof.
  unfold Cache.Get. destruct (Cache.lookup Keq k (Cache.entries c)); intros H.
  - now injection H as -> <-.
  - discriminate.
Qed.

Lemma Get_miss (c : Cache.Lru K V) k c' :
  Cache.Get Keq c k = (None, c') ->
  Cache.lookup Keq k (Cache.entries c) = None /\ c' = c.
Proof.
  unfold Cache.Get. destruct (Cache.lookup Keq k (Cache.entries c)); intros H.
  - discriminate.
  - now injection H as <-.
Qed.

Lemma Put_new (c : Cache.Lru K V) k v :
  Cache.lookup Keq k (Cache.entries c) = None ->
  Cache.Put Keq c k v =
    Cache.mkLru (Cache.capacity c)
      ((k, v) :: if Cache.capacity c <=? Z.of_nat (length (Cache.entries c))
                 then removelast (Cache.entries c) else Cache.entries c).
Proof. unfold Cache.Put. now intros ->. Qed.

End LruFacts.

(** ** One call of [GetFakeIPForDomain] *)

Lemma allocLoop_free fuel net cache next ip next' :
  allocLoop fuel net cache next = Some (ip, next') ->
  cacheGetKeyFromValue cache ip = None /\
  exists i, (i < fuel)%nat /\
    ip = Net.IPAddress (BigInt.Bytes (Nat.iter i (advance net) next)) /\
    next' = Nat.iter (S i) (advance net) next.
Proof.
  revert next. induction fuel as [|fuel IH]; simpl; intros next H.
  - discriminate.
  - destruct (cacheGetKeyFromValue cache
                (Net.IPAddress (BigInt.Bytes next))) eqn:E.
    + apply IH in H. destruct H as [Hfree [i [Hi [Hip Hn]]]].
      split; [exact Hfree|]. exists (S i). split; [lia|].
      rewrite Hip, Hn. simpl. rewrite <- !Nat.iter_succ_r. simpl. auto.
    + injection H as <- <-. split; [exact E|].
      exists O. split; [lia|]. simpl. auto.
Qed.

Lemma allocLoop_more fuel extra net cache next r :
  allocLoop fuel net cache next = Some r ->
  allocLoop (fuel + extra) net cache next = Some r.
Proof.
  revert next. induction fuel as [|fuel IH]; simpl; intros next H.
  - discriminate.
  - destruct (cacheGetKeyFromValue cache
                (Net.IPAddress (BigInt.Bytes next))); auto.
Qed.

Lemma allocLoop_spin fuel net cache next :
  allocLoop fuel net cache next = None ->
  forall i, (i < fuel)%nat ->
    In (Net.IPAddress (BigInt.Bytes (Nat.iter i (advance net) next)))
       (map snd (Cache.entries cache)).
Proof.
  revert next. induction fuel as [|fuel IH]; simpl; intros next H i Hi.
  - lia.
  - destruct (cacheGetKeyFromValue cache
                (Net.IPAddress (BigInt.Bytes next))) eqn:E; [|discriminate].
    destruct i as [|i].
    + simpl. apply rlookup_In in E.
      apply in_map_iff. eexists; split; [|exact E]. reflexivity.
    + rewrite Nat.iter_succ_r. apply IH; [exact H | lia].
Qed.


Lemma GetFakeIPForDomain_allocated fuel h d ips h' :
  GetFakeIPForDomain fuel h d = Done (ips, h') -> allocated fuel h d ips h'.
Proof.
  unfold GetFakeIPForDomain.
  destruct (domainToIP h) as [cache|] eqn:Hc; [|discriminate].
  destruct (cacheGet cache d) as [[v|] cache'] eqn:Hg.
  - apply Get_hit in Hg. destruct Hg as [Hl ->].
    intros H.
    assert (Hv : v <> Net.nilAddress) by (intros ->; discriminate).
    assert (E : ips = [v] /\
                h' = mkHolder
                       (Some (Cache.mkLru (Cache.capacity cache)
                                ((d, v) :: Cache.removeKey string_dec d
                                             (Cache.entries cache))))
                       (nextIP h) (ipRange h) (config h)).
    { destruct v; try contradiction; injection H as <- <-; auto. }
    destruct E as [-> ->]. now apply alloc_hit.
  - apply Get_miss in Hg. destruct Hg as [Hl ->].
    destruct (nextIP h) as [next|] eqn:Hn; [|discriminate].
    destruct (ipRange h) as [net|] eqn:Hr; [|discriminate].
    destruct (allocLoop fuel net cache next) as [[ip next']|] eqn:Ha;
      [|discriminate].
    intros H. injection H as <- <-.
    unfold cachePut. rewrite Put_new by exact Hl.
    now apply alloc_miss with (next := next).
Qed.

(** Induction over a sequence of calls. *)
Lemma run_invariant (P : Holder -> Prop) fuel :
  (forall h d ips h', P h -> GetFakeIPForDomain fuel h d = Done (ips, h') -> P h') ->
  forall calls h rs h', P h -> run fuel h calls = Done (rs, h') -> P h'.
Proof.
  intros Hstep calls. induction calls as [|c calls IH]; simpl; intros h rs h' HP H.
  - now injection H as _ <-.
  - destruct c as [d|a].
    + destruct (GetFakeIPForDomain fuel h d) as [[ips h1]| |] eqn:E;
        try discriminate.
      destruct (run fuel h1 calls) as [[rs1 h2]| |] eqn:E2; try discriminate.
      injection H as _ <-. eapply IH; [|exact E2]. eapply Hstep; eauto.
    + destruct (GetDomainFromFakeDNS h a); try discriminate.
      destruct (run fuel h calls) as [[rs1 h2]| |] eqn:E2; try discriminate.
      injection H as _ <-. eapply IH; eauto.
Qed.

(** The holder that a successful [initialize] leaves. *)
Lemma initializeWith_ok parse h cidr lruSize h0 :
  initializeWith parse h cidr lruSize = (h0, None) ->
  exists ipaddr net,
    parse cidr = Some (ipaddr, net) /\
    log2AtLeast lruSize (rooms net) = false /\
    h0 = mkHolder (Some (Cache.NewLru lruSize))
           (Some (match GoNet.To4 ipaddr with
                  | Some ip4 => BigInt.SetBytes ip4
                  | None => BigInt.SetBytes ipaddr
                  end))
           (Some net) (config h).
Proof.
  unfold initializeWith.
  destruct (parse cidr) as [[ipaddr net]|]; [|discriminate].
  intros H. exists ipaddr, net. unfold rooms.
  destruct (GoNet.Size (GoNet.net_Mask net)) as [ones bits].
  destruct (log2AtLeast lruSize (bits - ones)) eqn:E; [discriminate|].
  injection H as <-. auto.
Qed.

(** *** Keys and values stay without repetition *)

Lemma distinctPairs_step fuel h d ips h' :
  distinctPairs h -> GetFakeIPForDomain fuel h d = Done (ips, h') ->
  distinctPairs h'.
Proof.
  intros [Hk Hv] H. apply GetFakeIPForDomain_allocated in H.
  unfold distinctPairs, liveDomains, liveAddresses, live in *.
  destruct H as [cache v Hc Hl Hnil | cache next net ip next' Hc Hl Hn Hr Ha];
    rewrite Hc in Hk, Hv; simpl.
  - split; constructor.
    + apply removeKey_absent.
    + now apply NoDup_keys_removeKey.
    + intros Hin. apply in_map_iff in Hin. destruct Hin as [[k' v'] [E Hin]].
      simpl in E. subst v'. apply removeKey_In in Hin. destruct Hin as [Hin Hne].
      apply Hne. apply lookup_In in Hl.
      eapply NoDup_values_unique; eauto.
    + now apply NoDup_values_removeKey.
  - apply allocLoop_free in Ha. destruct Ha as [Hfree _].
    apply rlookup_None in Hfree. apply lookup_None in Hl.
    destruct (Cache.capacity cache <=? Z.of_nat (length (Cache.entries cache))).
    + split; constructor.
      * rewrite removelast_map. intros Hin. apply Hl.
        now apply (removelast_incl (map fst (Cache.entries cache))).
      * rewrite removelast_map. now apply NoDup_removelast.
      * rewrite removelast_map. intros Hin. apply Hfree.
        now apply (removelast_incl (map snd (Cache.entries cache))).
      * rewrite removelast_map. now apply NoDup_removelast.
    + split; constructor; auto.
Qed.

Lemma distinctPairs_bijection h : distinctPairs h -> partialBijection (live h).
Proof.
  intros [Hk Hv]. split.
  - intros d a1 a2. now apply NoDup_keys_unique.
  - intros d1 d2 a. now apply NoDup_values_unique.
Qed.

(** C1. Bijection invariant: after a successful [initialize] (whatever the
    parser and the pool) and any sequence of [GetFakeIPForDomain] and
    [GetDomainFromFakeDNS] calls that has returned, the live pairs form a
    partial bijection: no domain has two addresses, no address has two
    domains, and neither the domains nor the addresses repeat.  The
    sequence is arbitrary, so the statement holds between any two calls. *)
Theorem bijection_invariant parse conf cidr lruSize h0 fuel calls replies h :
  initializeWith parse (blank conf) cidr lruSize = (h0, None) ->
  run fuel h0 calls = Done (replies, h) ->
  partialBijection (live h) /\ NoDup (liveDomains h) /\ NoDup (liveAddresses h).
Proof.
  intros Hinit Hrun.
  assert (Hd : distinctPairs h).
  { eapply run_invariant with (P := distinctPairs); [| |exact Hrun].
    - intros; eapply distinctPairs_step; eauto.
    - apply initializeWith_ok in Hinit.
      destruct Hinit as [ipaddr [net [_ [_ ->]]]].
      split; constructor. }
  split; [now apply distinctPairs_bijection | exact Hd].
Qed.

Lemma bijection_invariant_witness :
  run 4 smallHolder smallSession
  = Done ([ReplyIPs [Net.ipv4Address [240; 0; 0; 0]];
           ReplyIPs [Net.ipv4Address [240; 0; 0; 1]];
           ReplyDomain "b.com";
           ReplyIPs [Net.ipv4Address [240; 0; 0; 0]];
           ReplyIPs [Net.ipv4Address [240; 0; 0; 2]]],
          finalHolder (run 4 smallHolder smallSession)) /\
  partialBijection (live (finalHolder (run 4 smallHolder smallSession))) /\
  NoDup (liveDomains (finalHolder (run 4 smallHolder smallSession))) /\
  NoDup (liveAddresses (finalHolder (run 4 smallHolder smallSession))).
Proof.
  split; [vm_compute; reflexivity|].
  apply (bijection_invariant GoNet.ParseCIDR None "240.0.0.0/30" 2
           smallHolder 4 smallSession
           (repliesOf (run 4 smallHolder smallSession))
           (finalHolder (run 4 smallHolder smallSession)));
    vm_compute; reflexivity.
Defined.

(** *** The capacity and the recency order *)

Lemma withinCapacity_step cap fuel h d ips h' :
  0 < cap -> withinCapacity cap h ->
  GetFakeIPForDomain fuel h d = Done (ips, h') -> withinCapacity cap h'.
Proof.
  intros Hpos [cache [Hc [Hcap Hlen]]] H.
  apply GetFakeIPForDomain_allocated in H.
  destruct H as [cache' v Hc' Hl Hnil | cache' next net ip next' Hc' Hl Hn Hr Ha];
    rewrite Hc in Hc'; injection Hc' as <-;
    eexists; (split; [reflexivity|]); (split; [exact Hcap|]); simpl.
  - apply (removeKey_length_hit string_dec) in Hl. lia.
  - rewrite Hcap.
    destruct (cap <=? Z.of_nat (length (Cache.entries cache))) eqn:E.
    + pose proof (removelast_length_le (Cache.entries cache)). simpl. lia.
    + apply Z.leb_gt in E. simpl. lia.
Qed.

Lemma allocated_domains fuel h d ips h' cache :
  domainToIP h = Some cache ->
  allocated fuel h d ips h' ->
  liveDomains h' = specAccess (Cache.capacity cache) (liveDomains h) d /\
  exists cache', domainToIP h' = Some cache' /\
                 Cache.capacity cache' = Cache.capacity cache.
Proof.
  intros Hc H. unfold liveDomains, live, specAccess. rewrite Hc.
  destruct H as [cache' v Hc' Hl Hnil | cache' next net ip next' Hc' Hl Hn Hr Ha];
    rewrite Hc in Hc'; injection Hc' as <-; simpl.
  - split; [|eauto]. apply lookup_In in Hl.
    destruct (in_dec string_dec d (map fst (Cache.entries cache))) as [_|Hn].
    + now rewrite removeKey_keys.
    + exfalso. apply Hn. apply in_map_iff. now exists (d, v).
  - split; [|eauto]. apply lookup_None in Hl.
    destruct (in_dec string_dec d (map fst (Cache.entries cache))) as [Hin|_];
      [tauto|].
    rewrite length_map.
    destruct (Cache.capacity cache <=? Z.of_nat (length (Cache.entries cache)));
      [now rewrite removelast_map | reflexivity].
Qed.

Lemma run_allocations_domains fuel cap ds :
  forall h rs h' cache,
    domainToIP h = Some cache -> Cache.capacity cache = cap ->
    run fuel h (map CallGetFakeIPForDomain ds) = Done (rs, h') ->
    liveDomains h' = fold_left (specAccess cap) ds (liveDomains h).
Proof.
  induction ds as [|d ds IH]; simpl; intros h rs h' cache Hc Hcap H.
  - now injection H as _ <-.
  - destruct (GetFakeIPForDomain fuel h d) as [[ips h1]| |] eqn:E;
      try discriminate.
    destruct (run fuel h1 (map CallGetFakeIPForDomain ds)) as [[rs1 h2]| |] eqn:E2;
      try discriminate.
    injection H as _ <-.
    apply GetFakeIPForDomain_allocated in E.
    destruct (allocated_domains _ _ _ _ _ _ Hc E) as [Hd [cache1 [Hc1 Hcap1]]].
    rewrite (IH _ _ _ cache1 Hc1 (eq_trans Hcap1 Hcap) E2).
    now rewrite Hd, Hcap.
Qed.

Lemma In_not_removelast {A} (x : A) (l : list A) :
  In x l -> ~ In x (removelast l) -> x = last l x.
Proof.
  intros Hin Hn. destruct l as [|a l]; [easy|].
  assert (Hne : a :: l <> []) by discriminate.
  rewrite (app_removelast_last x Hne) in Hin.
  apply in_app_or in Hin. destruct Hin as [Hin|[E|[]]]; [tauto | now symmetry].
Qed.

(** A pair that a call removes is the least recently used one of a full
    cache, and neither of its two components stays behind. *)
Lemma evicted_pair fuel h d ips h' k v :
  distinctPairs h ->
  GetFakeIPForDomain fuel h d = Done (ips, h') ->
  In (k, v) (live h) -> ~ In (k, v) (live h') ->
  (k, v) = last (live h) (k, v) /\
  ~ In k (liveDomains h') /\ ~ In v (liveAddresses h') /\
  exists cache, domainToIP h = Some cache /\
    Cache.capacity cache <= Z.of_nat (length (live h)).
Proof.
  intros [Hk Hv] H Hin Hout. apply GetFakeIPForDomain_allocated in H.
  unfold liveDomains, liveAddresses, live in *.
  destruct H as [cache v0 Hc Hl Hnil | cache next net ip next' Hc Hl Hn Hr Ha];
    rewrite Hc in *; simpl in *.
  - exfalso. apply Hout. apply lookup_In in Hl.
    destruct (string_dec k d) as [->|Hne].
    + left. f_equal. eapply NoDup_keys_unique; eauto.
    + right. apply removeKey_In. auto.
  - apply allocLoop_free in Ha. destruct Ha as [Hfree _].
    apply rlookup_None in Hfree. apply lookup_None in Hl.
    destruct (Cache.capacity cache <=? Z.of_nat (length (Cache.entries cache)))
      eqn:E; [|tauto].
    assert (Hlast : (k, v) = last (Cache.entries cache) (k, v)).
    { apply In_not_removelast; tauto. }
    split; [exact Hlast|].
    split; [|split].
    + intros [->|Hin']; [apply Hl; apply in_map_iff; now exists (k, v)|].
      apply in_map_iff in Hin'. destruct Hin' as [[k' v'] [Ek Hin']].
      simpl in Ek. subst k'. apply Hout. right.
      replace v with v'; [exact Hin'|].
      eapply NoDup_keys_unique; eauto. now apply removelast_incl.
    + intros [->|Hin']; [apply Hfree; apply in_map_iff; now exists (k, v)|].
      apply in_map_iff in Hin'. destruct Hin' as [[k' v'] [Ev Hin']].
      simpl in Ev. subst v'. apply Hout. right.
      replace k with k'; [exact Hin'|].
      eapply NoDup_values_unique; eauto. now apply removelast_incl.
    + exists cache. split; [reflexivity|]. now apply Z.leb_le.
Qed.


(** *** A hit after a call *)

Lemma returned_pair_live fuel h d ips h' :
  GetFakeIPForDomain fuel h d = Done (ips, h') ->
  exists a, ips = [a] /\ In (d, a) (live h').
Proof.
  intros H. apply GetFakeIPForDomain_allocated in H.
  destruct H as [cache v Hc Hl Hnil | cache next net ip next' Hc Hl Hn Hr Ha];
    eexists; (split; [reflexivity|]); simpl; now left.
Qed.

(** X5. When a call has returned an address, the same call made again at once
    returns it again and leaves the holder as it is, cursor included; the
    second call does not enter the allocation loop, since it returns even
    when the loop is given no iteration at all. *)
Lemma hit_after_call fuel fuel' h d a h1 :
  GetFakeIPForDomain fuel h d = Done ([a], h1) ->
  a <> Net.nilAddress ->
  GetFakeIPForDomain fuel' h1 d = Done ([a], h1).
Proof.
  intros H Ha. apply GetFakeIPForDomain_allocated in H.
  assert (Hhit : forall cap rest nx rg cf,
             ~ In d (map fst rest) ->
             GetFakeIPForDomain fuel'
               (mkHolder (Some (Cache.mkLru cap ((d, a) :: rest))) nx rg cf) d
             = Done ([a], mkHolder (Some (Cache.mkLru cap ((d, a) :: rest)))
                            nx rg cf)).
  { intros cap rest nx rg cf Hn.
    unfold GetFakeIPForDomain, cacheGet, Cache.Get. simpl.
    destruct (string_dec d d) as [_|Hne]; [|congruence].
    rewrite (removeKey_id string_dec _ _ Hn).
    destruct a; try contradiction; reflexivity. }
  inversion H as [cache v Hc Hl Hnil E1 E2
                 | cache next net ip next' Hc Hl Hn Hr Hloop E1 E2]; subst.
  - apply Hhit. apply removeKey_absent.
  - apply Hhit. apply lookup_None in Hl.
    destruct (Cache.capacity cache <=? _); [|exact Hl].
    rewrite removelast_map. intros Hin. apply Hl.
    now apply (removelast_incl (map fst (Cache.entries cache))).
Qed.

(** *** Close *)

(** C10. Frame of [Close]: whatever the holder, the cache, the cursor and
    the range are nil afterwards, the configuration is the one it had, and
    the error is nil. *)
Theorem Close_frame (holder : Holder) :
  domainToIP (fst (Close holder)) = None /\
  nextIP (fst (Close holder)) = None /\
  ipRange (fst (Close holder)) = None /\
  config (fst (Close holder)) = config holder /\
  snd (Close holder) = None.
Proof. unfold Close. simpl. auto. Qed.

(** *** initialize *)

Lemma log2AtLeast_spec lruSize r :
  log2AtLeast lruSize r = true <-> 0 < lruSize /\ 2 ^ r <= lruSize.
Proof.
  unfold log2AtLeast. rewrite andb_true_iff, Z.ltb_lt, Z.leb_le. tauto.
Qed.


(** *** The scenario of the spec *)

(** C7. Pool "240.0.0.0/8", capacity 2: "a.com" gets 240.0.0.0 and "b.com"
    240.0.0.1; allocating "c.com" removes "a.com", so that the reverse
    lookup of 240.0.0.0 finds nothing, and "c.com" holds an address other
    than 240.0.0.1, which "b.com" still has. *)
Theorem scenario_slash8 :
  exists h0 h1 h2 h3 c,
    initialize (blank None) "240.0.0.0/8" 2 = (h0, None) /\
    (forall fuel, GetFakeIPForDomain (S fuel) h0 "a.com"
                  = Done ([Net.ipv4Address [240; 0; 0; 0]], h1)) /\
    (forall fuel, GetFakeIPForDomain (S fuel) h1 "b.com"
                  = Done ([Net.ipv4Address [240; 0; 0; 1]], h2)) /\
    (forall fuel, GetFakeIPForDomain (S fuel) h2 "c.com" = Done ([c], h3)) /\
    liveDomains h2 = ["b.com"; "a.com"]%string /\
    liveDomains h3 = ["c.com"; "b.com"]%string /\
    GetDomainFromFakeDNS h3 (Net.ipv4Address [240; 0; 0; 0]) = Done ""%string /\
    GetDomainFromFakeDNS h3 (Net.ipv4Address [240; 0; 0; 1])
    = Done "b.com"%string /\
    (forall fuel, GetFakeIPForDomain fuel h3 "c.com" = Done ([c], h3)) /\
    c <> Net.ipv4Address [240; 0; 0; 1] /\
    GetDomainFromFakeDNS h3 c = Done "c.com"%string.
Proof.
  do 4 eexists. exists (Net.ipv4Address [240; 0; 0; 2]).
  split; [vm_compute; reflexivity|].
  split; [intros fuel; vm_compute; reflexivity|].
  split; [intros fuel; vm_compute; reflexivity|].
  split; [intros fuel; vm_compute; reflexivity|].
  split; [vm_compute; reflexivity|].
  split; [vm_compute; reflexivity|].
  split; [vm_compute; reflexivity|].
  split; [vm_compute; reflexivity|].
  split; [intros fuel; vm_compute; reflexivity|].
  split; [discriminate | vm_compute; reflexivity].
Qed.

(** ** Bytes and numbers *)

Lemma testbit_above x k n : 0 <= x < 2 ^ k -> 0 <= k <= n -> Z.testbit x n = false.
Proof.
  intros Hx Hk. rewrite <- (Z.mod_small x (2 ^ k)) by exact Hx.
  apply Z.mod_pow2_bits_high. exact Hk.
Qed.

Lemma testbit_shift_byte x p n :
  isByte p -> 0 <= n ->
  Z.testbit (x * 256 + p) n = if n <? 8 then Z.testbit p n else Z.testbit x (n - 8).
Proof.
  intros Hp Hn. unfold isByte in Hp. destruct (n <? 8) eqn:E.
  - apply Z.ltb_lt in E.
    rewrite <- (Z.mod_pow2_bits_low (x * 256 + p) 8 n) by exact E.
    change (2 ^ 8) with 256. rewrite Z.add_comm, Z.mod_add by lia.
    now rewrite Z.mod_small by lia.
  - apply Z.ltb_ge in E.
    replace n with (n - 8 + 8) at 1 by lia.
    rewrite <- Z.div_pow2_bits by lia.
    change (2 ^ 8) with 256. rewrite Z.add_comm, Z.div_add by lia.
    now rewrite Z.div_small by lia.
Qed.

Lemma land_byte p q : isByte p -> isByte q -> isByte (Z.land p q).
Proof.
  unfold isByte. intros Hp Hq.
  assert (E : Z.land p q = Z.land p q mod 2 ^ 8).
  { rewrite <- (Z.land_ones (Z.land p q)) by lia.
    rewrite <- Z.land_assoc, (Z.land_comm q), Z.land_assoc, Z.land_ones by lia.
    rewrite (Z.mod_small p) by (change (2 ^ 8) with 256; lia). reflexivity. }
  rewrite E. change (2 ^ 8) with 256. apply Z.mod_pos_bound. lia.
Qed.

Lemma land_shift_byte x y p q :
  isByte p -> isByte q ->
  Z.land (x * 256 + p) (y * 256 + q) = Z.land x y * 256 + Z.land p q.
Proof.
  intros Hp Hq. apply Z.bits_inj'. intros n Hn.
  rewrite Z.land_spec, !testbit_shift_byte by (auto using land_byte).
  destruct (n <? 8); now rewrite Z.land_spec.
Qed.

Lemma SetBytes_and_acc a : forall m x y,
  length a = length m -> Forall isByte a -> Forall isByte m ->
  fold_left (fun acc b => acc * 256 + b) (GoNet.andBytes a m) (Z.land x y)
  = Z.land (fold_left (fun acc b => acc * 256 + b) a x)
           (fold_left (fun acc b => acc * 256 + b) m y).
Proof.
  induction a as [|p a IH]; intros [|q m] x y Hlen Ha Hm; simpl in *;
    try discriminate; [reflexivity|].
  inversion Ha; inversion Hm; subst.
  rewrite <- land_shift_byte by assumption.
  apply IH; auto.
Qed.

Lemma SetBytes_andBytes a m :
  length a = length m -> Forall isByte a -> Forall isByte m ->
  BigInt.SetBytes (GoNet.andBytes a m)
  = Z.land (BigInt.SetBytes a) (BigInt.SetBytes m).
Proof.
  intros. unfold BigInt.SetBytes.
  rewrite <- (SetBytes_and_acc a m 0 0) by assumption. reflexivity.
Qed.

Lemma andBytes_bytes a : forall m,
  Forall isByte a -> Forall isByte m -> Forall isByte (GoNet.andBytes a m).
Proof.
  induction a as [|p a IH]; intros [|q m] Ha Hm; simpl; try constructor.
  - inversion Ha; inversion Hm; subst. now apply land_byte.
  - inversion Ha; inversion Hm; subst. now apply IH.
Qed.

Lemma andBytes_length a : forall m,
  length a = length m -> length (GoNet.andBytes a m) = length a.
Proof.
  induction a as [|p a IH]; intros [|q m] H; simpl in *; try discriminate; auto.
Qed.

Lemma SetBytes_inj_acc a : forall b x y,
  length a = length b -> Forall isByte a -> Forall isByte b ->
  fold_left (fun acc c => acc * 256 + c) a x
  = fold_left (fun acc c => acc * 256 + c) b y ->
  x = y /\ a = b.
Proof.
  induction a as [|p a IH]; intros [|q b] x y Hlen Ha Hb H; simpl in *;
    try discriminate; [auto|].
  inversion Ha; inversion Hb; subst.
  destruct (IH b _ _ ltac:(lia) ltac:(assumption) ltac:(assumption) H) as [E ->].
  unfold isByte in *. assert (x = y) by lia. subst. split; [reflexivity|].
  f_equal. lia.
Qed.

Lemma SetBytes_inj a b :
  length a = length b -> Forall isByte a -> Forall isByte b ->
  BigInt.SetBytes a = BigInt.SetBytes b -> a = b.
Proof.
  intros Hl Ha Hb H. now destruct (SetBytes_inj_acc a b 0 0 Hl Ha Hb H).
Qed.

Lemma land_mask x r :
  0 <= x < 2 ^ 32 -> 0 <= r <= 32 ->
  Z.land x (2 ^ 32 - 2 ^ r) = x - x mod 2 ^ r.
Proof.
  intros Hx Hr.
  assert (EM : 2 ^ 32 - 2 ^ r = Z.shiftl (Z.ones (32 - r)) r).
  { rewrite Z.shiftl_mul_pow2, Z.ones_equiv by lia.
    replace (2 ^ 32) with (2 ^ (32 - r) * 2 ^ r)
      by (rewrite <- Z.pow_add_r by lia; f_equal; lia).
    unfold Z.pred. ring. }
  assert (EX : x - x mod 2 ^ r = Z.shiftl (Z.shiftr x r) r).
  { rewrite Z.shiftl_mul_pow2, Z.shiftr_div_pow2 by lia.
    pose proof (Z.div_mod x (2 ^ r) ltac:(lia)). lia. }
  rewrite EM, EX. apply Z.bits_inj'. intros n Hn.
  rewrite Z.land_spec, !Z.shiftl_spec by lia.
  destruct (Z.lt_ge_cases n r) as [Hlt|Hge].
  - rewrite !(Z.testbit_neg_r _ (n - r)) by lia. apply andb_false_r.
  - rewrite Z.shiftr_spec by lia. replace (n - r + r) with n by lia.
    rewrite Z.testbit_ones_nonneg by lia.
    destruct (n - r <? 32 - r) eqn:E.
    + apply andb_true_r.
    + apply Z.ltb_ge in E. rewrite (testbit_above x 32 n) by lia. reflexivity.
Qed.

Lemma pow_consts :
  Z.pow_pos 256 3 = 2 ^ 24 /\ Z.pow_pos 256 2 = 2 ^ 16 /\ Z.pow_pos 256 1 = 2 ^ 8.
Proof. repeat split; vm_compute; reflexivity. Qed.

Lemma Bytes_length x : length (BigInt.Bytes x) = BigInt.byteLen (Z.abs x).
Proof. unfold BigInt.Bytes. now rewrite length_map, length_rev, length_seq. Qed.

Lemma byteLen_four x : 2 ^ 24 <= x < 2 ^ 32 -> BigInt.byteLen x = 4%nat.
Proof.
  intros Hx. unfold BigInt.byteLen.
  destruct (x <=? 0) eqn:E; [apply Z.leb_le in E; lia|].
  assert (24 <= Z.log2 x) by (apply Z.log2_le_pow2; lia).
  assert (Z.log2 x < 32) by (apply Z.log2_lt_pow2; lia).
  assert (Z.log2 x / 8 = 3) by (Z.div_mod_to_equations; lia).
  lia.
Qed.

Lemma byteLen_short x : 0 <= x < 2 ^ 24 -> (BigInt.byteLen x < 4)%nat.
Proof.
  intros Hx. unfold BigInt.byteLen.
  destruct (x <=? 0) eqn:E; [lia|]. apply Z.leb_gt in E.
  assert (Z.log2 x < 24) by (apply Z.log2_lt_pow2; lia).
  pose proof (Z.log2_nonneg x).
  assert (Z.log2 x / 8 <= 2) by (Z.div_mod_to_equations; lia).
  assert (0 <= Z.log2 x / 8) by (Z.div_mod_to_equations; lia).
  lia.
Qed.

Lemma Bytes_be4 x : 2 ^ 24 <= x < 2 ^ 32 -> BigInt.Bytes x = be4 x.
Proof.
  intros Hx. unfold BigInt.Bytes.
  rewrite Z.abs_eq by lia. rewrite byteLen_four by exact Hx.
  unfold be4. simpl map.
  destruct pow_consts as [-> [-> ->]]. rewrite Z.div_1_r. reflexivity.
Qed.

Lemma be4_length x : length (be4 x) = 4%nat.
Proof. reflexivity. Qed.

Lemma be4_bytes x : Forall isByte (be4 x).
Proof.
  unfold be4, isByte. repeat constructor; apply Z.mod_pos_bound; lia.
Qed.

Lemma SetBytes_be4 x : 0 <= x < 2 ^ 32 -> BigInt.SetBytes (be4 x) = x.
Proof.
  intros Hx. unfold BigInt.SetBytes, be4. simpl.
  change (2 ^ 24) with 16777216 in *. change (2 ^ 16) with 65536 in *.
  change (2 ^ 8) with 256 in *. change (2 ^ 32) with 4294967296 in *.
  Z.div_mod_to_equations. lia.
Qed.

Lemma be4_inj x y :
  0 <= x < 2 ^ 32 -> 0 <= y < 2 ^ 32 -> be4 x = be4 y -> x = y.
Proof.
  intros Hx Hy E. rewrite <- (SetBytes_be4 x Hx), <- (SetBytes_be4 y Hy).
  now rewrite E.
Qed.

(** The masks of the 33 IPv4 prefix lengths, checked one by one. *)
Lemma Z_range_forallb (P : Z -> bool) (len : nat) :
  forallb P (map Z.of_nat (seq 0 len)) = true ->
  forall n, 0 <= n < Z.of_nat len -> P n = true.
Proof.
  intros H n Hn. rewrite forallb_forall in H. apply H.
  apply in_map_iff. exists (Z.to_nat n). split; [lia|].
  apply in_seq. lia.
Qed.

Lemma cidrMask_facts ones :
  0 <= ones <= 32 ->
  length (GoNet.cidrMaskLoop 4 ones) = 4%nat /\
  Forall isByte (GoNet.cidrMaskLoop 4 ones) /\
  BigInt.SetBytes (GoNet.cidrMaskLoop 4 ones) = 2 ^ 32 - 2 ^ (32 - ones) /\
  GoNet.Size (GoNet.cidrMaskLoop 4 ones) = (ones, 32).
Proof.
  intros H.
  pose (P := fun n =>
    let m := GoNet.cidrMaskLoop 4 n in
    (length m =? 4)%nat
    && forallb (fun b => (0 <=? b) && (b <? 256)) m
    && (BigInt.SetBytes m =? 2 ^ 32 - 2 ^ (32 - n))
    && (fst (GoNet.Size m) =? n) && (snd (GoNet.Size m) =? 32)).
  assert (HP : P ones = true).
  { apply (Z_range_forallb P 33); [vm_compute; reflexivity | lia]. }
  unfold P in HP. cbv zeta in HP.
  apply andb_true_iff in HP. destruct HP as [HP H5].
  apply andb_true_iff in HP. destruct HP as [HP H4].
  apply andb_true_iff in HP. destruct HP as [HP H3].
  apply andb_true_iff in HP. destruct HP as [H1 H2].
  apply Nat.eqb_eq in H1. apply Z.eqb_eq in H3, H4, H5.
  split; [exact H1|]. split; [|split; [exact H3|]].
  - apply Forall_forall. intros b Hb. rewrite forallb_forall in H2.
    specialize (H2 b Hb). apply andb_true_iff in H2. unfold isByte. lia.
  - rewrite (surjective_pairing (GoNet.Size (GoNet.cidrMaskLoop 4 ones))).
    now rewrite H4, H5.
Qed.

Lemma containsLoop_spec nn : forall m ip,
  length nn = length m -> length nn = length ip ->
  GoNet.containsLoop nn m ip = true <-> GoNet.andBytes nn m = GoNet.andBytes ip m.
Proof.
  induction nn as [|a nn IH]; intros [|b m] [|c ip] H1 H2; simpl in *;
    try discriminate; [tauto|].
  destruct (Z.land a b =? Z.land c b) eqn:E; simpl.
  - apply Z.eqb_eq in E. rewrite IH by lia. rewrite E.
    split; [now intros -> | intros H; now injection H].
  - apply Z.eqb_neq in E. split; [discriminate | intros H; now injection H].
Qed.

Lemma To4_four ip : length ip = 4%nat -> GoNet.To4 ip = Some ip.
Proof. intros H. unfold GoNet.To4. now rewrite H. Qed.

Lemma To4_other ip :
  length ip <> 4%nat -> length ip <> 16%nat -> GoNet.To4 ip = None.
Proof.
  intros H4 H16. unfold GoNet.To4.
  apply Nat.eqb_neq in H4, H16.
  change GoNet.IPv4len with 4%nat. change GoNet.IPv6len with 16%nat.
  now rewrite H4, H16.
Qed.

Lemma Contains_four nn m ip :
  length nn = 4%nat -> length m = 4%nat -> length ip = 4%nat ->
  GoNet.Contains (GoNet.mkIPNet nn m) ip = GoNet.containsLoop nn m ip.
Proof.
  intros Hn Hm Hi. unfold GoNet.Contains, GoNet.networkNumberAndMask. simpl.
  rewrite (To4_four nn Hn), (To4_four ip Hi), Hm, Hn, Hi.
  change (4 =? GoNet.IPv4len)%nat with true. cbv iota.
  now rewrite Hn.
Qed.

Lemma Contains_not_four nn m ip :
  length nn = 4%nat -> length m = 4%nat ->
  length ip <> 4%nat -> GoNet.To4 ip = None ->
  GoNet.Contains (GoNet.mkIPNet nn m) ip = false.
Proof.
  intros Hn Hm Hi Ht. unfold GoNet.Contains, GoNet.networkNumberAndMask. simpl.
  rewrite (To4_four nn Hn), Ht, Hm, Hn.
  change (4 =? GoNet.IPv4len)%nat with true. cbv iota.
  rewrite Hn. apply Nat.eqb_neq in Hi. now rewrite Hi.
Qed.

(** ** IPv4 ranges *)

Lemma SetBytes_four f :
  length f = 4%nat -> Forall isByte f -> 0 <= BigInt.SetBytes f < 2 ^ 32.
Proof.
  intros Hl Hf.
  destruct f as [|a [|b [|c [|d [|]]]]]; try discriminate.
  inversion Hf as [|? ? Ha Hf1]; inversion Hf1 as [|? ? Hb Hf2];
    inversion Hf2 as [|? ? Hc Hf3]; inversion Hf3 as [|? ? Hd _]; subst.
  unfold BigInt.SetBytes, isByte in *. simpl.
  change (2 ^ 32) with 4294967296. lia.
Qed.

Lemma pow_split ones :
  0 <= ones <= 32 -> 2 ^ (32 - ones) * 2 ^ ones = 2 ^ 32 /\ 0 < 2 ^ (32 - ones)
                     /\ 0 < 2 ^ ones.
Proof.
  intros H. rewrite <- Z.pow_add_r by lia.
  replace (32 - ones + ones) with 32 by lia.
  repeat split; apply Z.pow_pos_nonneg; lia.
Qed.

Section Pool.
Variables (net : GoNet.IPNet) (ones : Z) (f : list Z).
Hypothesis Hpool : v4Pool net ones f.

Lemma pool_rooms : rooms net = 32 - ones.
Proof.
  destruct Hpool as [Ho [_ [_ ->]]]. unfold rooms. cbn [GoNet.net_Mask].
  destruct (cidrMask_facts ones Ho) as [_ [_ [_ ->]]]. reflexivity.
Qed.

Lemma pool_size : poolSize net = 2 ^ (32 - ones).
Proof. unfold poolSize. now rewrite pool_rooms. Qed.

Lemma pool_base :
  poolBase net = BigInt.SetBytes f - BigInt.SetBytes f mod poolSize net.
Proof.
  rewrite pool_size. destruct Hpool as [Ho [Hl [Hf ->]]].
  destruct (cidrMask_facts ones Ho) as [Hml [Hmb [Hmv _]]].
  unfold poolBase. cbn [GoNet.net_IP].
  rewrite SetBytes_andBytes by (auto; congruence).
  rewrite Hmv. apply land_mask; [now apply SetBytes_four | lia].
Qed.

Lemma pool_bounds :
  0 <= poolBase net /\ 0 < poolSize net /\
  poolBase net + poolSize net <= 2 ^ 32 /\
  poolBase net = poolSize net * (BigInt.SetBytes f / poolSize net) /\
  inPool net (BigInt.SetBytes f).
Proof.
  unfold inPool. rewrite pool_base. rewrite pool_size.
  destruct Hpool as [Ho [Hl [Hf _]]].
  pose proof (SetBytes_four f Hl Hf) as HF.
  destruct (pow_split ones Ho) as [Hs [Hp Hq]].
  set (s := 2 ^ (32 - ones)) in *. set (F := BigInt.SetBytes f) in *.
  pose proof (Z.mod_pos_bound F s Hp) as Hm.
  pose proof (Z.div_mod F s ltac:(lia)) as Hd.
  assert (Hqt : F / s < 2 ^ ones).
  { apply Z.div_lt_upper_bound; [exact Hp | lia]. }
  assert (s * (F / s + 1) <= s * 2 ^ ones)
    by (apply Z.mul_le_mono_nonneg_l; lia).
  assert (0 <= s * (F / s))
    by (apply Z.mul_nonneg_nonneg; [lia | apply Z.div_pos; lia]).
  repeat split; lia.
Qed.

Lemma pool_Contains_be4 x :
  0 <= x < 2 ^ 32 ->
  GoNet.Contains net (be4 x) = true <-> inPool net x.
Proof.
  intros Hx. destruct pool_bounds as [Hb0 [Hs0 [Htop [Hbq Hin]]]].
  pose proof pool_base as Hbase. pose proof pool_size as Hsize.
  unfold inPool in *.
  destruct Hpool as [Ho [Hl [Hf Hnet]]].
  destruct (cidrMask_facts ones Ho) as [Hml [Hmb [Hmv _]]].
  set (m := GoNet.cidrMaskLoop 4 ones) in *.
  assert (Hnn : length (GoNet.andBytes f m) = 4%nat)
    by (rewrite andBytes_length; congruence).
  rewrite Hnet at 1.
  rewrite Contains_four by (auto using be4_length).
  rewrite containsLoop_spec by (rewrite ?be4_length; congruence).
  assert (Hand : GoNet.andBytes (GoNet.andBytes f m) m = GoNet.andBytes (be4 x) m
                 <-> poolBase net = x - x mod poolSize net).
  { assert (E1 : BigInt.SetBytes (GoNet.andBytes (GoNet.andBytes f m) m)
                 = poolBase net).
    { rewrite !SetBytes_andBytes
        by (auto using andBytes_bytes; rewrite ?andBytes_length; congruence).
      rewrite <- Z.land_assoc, Z.land_diag.
      rewrite <- SetBytes_andBytes by (auto; congruence).
      rewrite Hnet. reflexivity. }
    assert (E2 : BigInt.SetBytes (GoNet.andBytes (be4 x) m)
                 = x - x mod poolSize net).
    { rewrite SetBytes_andBytes
        by (auto using be4_bytes; rewrite ?be4_length; congruence).
      rewrite SetBytes_be4 by exact Hx. rewrite Hmv, Hsize.
      apply land_mask; [exact Hx | lia]. }
    split.
    - intros E. rewrite <- E1, <- E2. now rewrite E.
    - intros E. apply SetBytes_inj.
      + rewrite !andBytes_length; rewrite ?be4_length; congruence.
      + auto using andBytes_bytes.
      + auto using andBytes_bytes, be4_bytes.
      + now rewrite E1, E2. }
  rewrite Hand. clear Hand.
  pose proof (Z.mod_pos_bound x (poolSize net) Hs0) as Hm.
  split; [lia|]. intros Hr.
  set (s := poolSize net) in *. set (q := BigInt.SetBytes f / s) in *.
  assert (Hq : x / s = q).
  { symmetry. apply (Z.div_unique x s q (x - s * q)); lia. }
  pose proof (Z.div_mod x s ltac:(lia)). rewrite Hq in *. lia.
Qed.

Lemma pool_Contains_Bytes x :
  0 <= x <= 2 ^ 32 ->
  GoNet.Contains net (BigInt.Bytes x) = true <-> 2 ^ 24 <= x /\ inPool net x.
Proof.
  intros Hx. destruct pool_bounds as [Hb0 [Hs0 [Htop _]]].
  assert (Hshape : exists nn m, net = GoNet.mkIPNet nn m /\
                     length nn = 4%nat /\ length m = 4%nat).
  { destruct Hpool as [Ho [Hl [Hf Hnet]]].
    destruct (cidrMask_facts ones Ho) as [Hml _].
    eexists _, _. split; [exact Hnet|].
    split; [rewrite andBytes_length; congruence | exact Hml]. }
  destruct Hshape as [nn [m [Hnet [Hnn Hm]]]].
  destruct (Z.lt_ge_cases x (2 ^ 24)) as [Hlow|Hhigh].
  - assert (Hlen : (length (BigInt.Bytes x) < 4)%nat).
    { rewrite Bytes_length, Z.abs_eq by lia. apply byteLen_short. lia. }
    assert (Hc : GoNet.Contains net (BigInt.Bytes x) = false).
    { rewrite Hnet. apply Contains_not_four; [auto | auto | lia |].
      apply To4_other; lia. }
    rewrite Hc. split; [discriminate | lia].
  - destruct (Z.eq_dec x (2 ^ 32)) as [->|Hne].
    + assert (Hlen : length (BigInt.Bytes (2 ^ 32)) = 5%nat)
        by (vm_compute; reflexivity).
      assert (Hc : GoNet.Contains net (BigInt.Bytes (2 ^ 32)) = false).
      { rewrite Hnet. apply Contains_not_four; [auto | auto | lia |].
        apply To4_other; lia. }
      rewrite Hc. split; [discriminate|]. unfold inPool. lia.
    + rewrite Bytes_be4 by lia. rewrite pool_Contains_be4 by lia. tauto.
Qed.

(** The cursor after one turn. *)
Lemma advance_inPool x :
  inPool net x ->
  inPool net (advance net x) /\
  (advance net x = x + 1 \/ advance net x = poolBase net) /\
  (~ inPool net (x + 1) -> advance net x = poolBase net).
Proof.
  intros Hin. destruct pool_bounds as [Hb0 [Hs0 [Htop _]]].
  unfold advance. unfold inPool in *.
  destruct (GoNet.Contains net (BigInt.Bytes (x + 1))) eqn:E; simpl.
  - apply pool_Contains_Bytes in E; [|lia]. unfold inPool in E.
    split; [lia|]. split; [now left|]. intros Hn. exfalso. apply Hn. lia.
  - fold (poolBase net). split; [lia|]. split; [now right | reflexivity].
Qed.

Lemma advance_leading x :
  2 ^ 24 <= poolBase net -> inPool net x ->
  advance net x
  = if x + 1 <? poolBase net + poolSize net then x + 1 else poolBase net.
Proof.
  intros Hlead Hin. destruct pool_bounds as [Hb0 [Hs0 [Htop _]]].
  unfold advance. unfold inPool in *.
  destruct (x + 1 <? poolBase net + poolSize net) eqn:El.
  - apply Z.ltb_lt in El.
    assert (E : GoNet.Contains net (BigInt.Bytes (x + 1)) = true).
    { apply pool_Contains_Bytes; [lia|]. unfold inPool. lia. }
    now rewrite E.
  - apply Z.ltb_ge in El.
    destruct (GoNet.Contains net (BigInt.Bytes (x + 1))) eqn:E; [|reflexivity].
    apply pool_Contains_Bytes in E; [|lia]. unfold inPool in E. lia.
Qed.

End Pool.

(** ** What the IPv4 parser returns *)

Lemma parseIPv4Loop_shape s : forall atStart prevDot fields val digLen r,
  Forall isByte fields -> 0 <= val <= 255 -> (length fields <= 3)%nat ->
  GoNet.parseIPv4Loop s atStart prevDot fields val digLen = Some r ->
  length r = 4%nat /\ Forall isByte r.
Proof.
  induction s as [|c s IH]; intros atStart prevDot fields val digLen r Hf Hv Hl;
    simpl.
  - destruct (length fields <? 3)%nat eqn:E; [discriminate|].
    apply Nat.ltb_ge in E. intros H. injection H as <-.
    rewrite length_app. simpl. split; [lia|].
    apply Forall_app. split; [exact Hf|]. repeat constructor; unfold isByte; lia.
  - destruct (GoNet.isDigit c) eqn:Ed.
    + destruct ((digLen =? 1)%nat && (val =? 0)); [discriminate|].
      destruct (255 <? val * 10 + GoNet.digitVal c) eqn:E; [discriminate|].
      apply Z.ltb_ge in E. apply IH; auto.
      unfold GoNet.isDigit in Ed. cbv zeta in Ed. apply andb_true_iff in Ed.
      destruct Ed as [Ed _]. apply Z.leb_le in Ed.
      unfold GoNet.digitVal in *. lia.
    + destruct (GoNet.isDot c); [|discriminate].
      destruct (atStart || match s with [] => true | _ => false end || prevDot);
        [discriminate|].
      destruct (length fields =? 3)%nat eqn:E; [discriminate|].
      apply Nat.eqb_neq in E. apply IH.
      * apply Forall_app. split; [exact Hf|].
        repeat constructor; unfold isByte; lia.
      * lia.
      * rewrite length_app. simpl. lia.
Qed.

Lemma CIDRMask_v4 n :
  0 <= n <= 32 -> GoNet.CIDRMask n 32 = Some (GoNet.cidrMaskLoop 4 n).
Proof.
  intros H. unfold GoNet.CIDRMask.
  change (negb (32 =? 32) && negb (32 =? 128)) with false. cbv iota.
  assert (E : (n <? 0) || (32 <? n) = false).
  { apply orb_false_iff. split; [apply Z.ltb_ge | apply Z.ltb_ge]; lia. }
  rewrite E. reflexivity.
Qed.

Lemma To4_mapped f :
  length f = 4%nat -> GoNet.To4 (GoNet.v4InV6Prefix ++ f) = Some f.
Proof.
  intros H. destruct f as [|a [|b [|c [|d [|]]]]]; try discriminate.
  reflexivity.
Qed.

Lemma Mask_mapped f m :
  length f = 4%nat -> length m = 4%nat ->
  GoNet.Mask (GoNet.v4InV6Prefix ++ f) m = Some (GoNet.andBytes f m).
Proof.
  intros Hf Hm.
  destruct f as [|a [|b [|c [|d [|]]]]]; try discriminate.
  destruct m as [|m0 [|m1 [|m2 [|m3 [|]]]]]; try discriminate.
  reflexivity.
Qed.

Lemma ParseCIDR_shape s ipaddr net :
  GoNet.ParseCIDR s = Some (ipaddr, net) ->
  exists ones f, v4Pool net ones f /\ ipaddr = GoNet.v4InV6Prefix ++ f.
Proof.
  unfold GoNet.ParseCIDR.
  destruct (GoNet.cutSlash (list_ascii_of_string s)) as [[addr mask]|];
    [|discriminate].
  destruct (GoNet.parseIPv4 addr) as [f|] eqn:Ef; [|discriminate].
  destruct (GoNet.dtoi mask) as [[[n i] rest] ok].
  destruct (negb ok || negb match rest with [] => true | _ => false end
            || (n <? 0) || (32 <? n)) eqn:Ec; [discriminate|].
  apply orb_false_iff in Ec. destruct Ec as [Ec H32].
  apply orb_false_iff in Ec. destruct Ec as [_ H0].
  apply Z.ltb_ge in H32, H0.
  assert (Hn : 0 <= n <= 32) by lia.
  unfold GoNet.parseIPv4 in Ef.
  apply parseIPv4Loop_shape in Ef; [|constructor|lia|simpl; lia].
  destruct Ef as [Hl Hb].
  rewrite (CIDRMask_v4 n Hn).
  destruct (cidrMask_facts n Hn) as [Hml _].
  rewrite (Mask_mapped f _ Hl Hml).
  intros H. injection H as <- <-.
  exists n, f. split; [|reflexivity].
  repeat split; auto; lia.
Qed.

Lemma initialize_pool h cidr lruSize h0 :
  initialize h cidr lruSize = (h0, None) ->
  exists net ones f,
    v4Pool net ones f /\
    log2AtLeast lruSize (rooms net) = false /\
    h0 = mkHolder (Some (Cache.NewLru lruSize)) (Some (BigInt.SetBytes f))
                  (Some net) (config h).
Proof.
  unfold initialize, initializeWith.
  destruct (GoNet.ParseCIDR cidr) as [[ipaddr net]|] eqn:Ep; [|discriminate].
  apply ParseCIDR_shape in Ep. destruct Ep as [ones [f [Hp ->]]].
  pose proof Hp as [_ [Hl _]]. rewrite (To4_mapped f Hl).
  intros H. exists net, ones, f. split; [exact Hp|].
  unfold rooms.
  destruct (GoNet.Size (GoNet.net_Mask net)) as [o b].
  destruct (log2AtLeast lruSize (b - o)); [discriminate|].
  injection H as <-. auto.
Qed.

(** ** The cursor stays in the range *)

Lemma iter_advance_inPool net ones f c i :
  v4Pool net ones f -> inPool net c -> inPool net (Nat.iter i (advance net) c).
Proof.
  intros Hp Hc. induction i as [|i IH]; simpl; [exact Hc|].
  now apply (advance_inPool net ones f Hp).
Qed.

Lemma cursorInPool_step net ones f fuel h d ips h' :
  v4Pool net ones f -> cursorInPool net h ->
  GetFakeIPForDomain fuel h d = Done (ips, h') -> cursorInPool net h'.
Proof.
  intros Hp [Hr [c [Hc Hin]]] H. apply GetFakeIPForDomain_allocated in H.
  destruct H as [cache v _ _ _ | cache next net' ip next' _ _ Hn Hr' Ha].
  - split; [exact Hr|]. exists c. auto.
  - rewrite Hr in Hr'. injection Hr' as <-.
    rewrite Hc in Hn. injection Hn as <-.
    apply allocLoop_free in Ha. destruct Ha as [_ [i [_ [_ ->]]]].
    split; [reflexivity|]. eexists. split; [reflexivity|].
    now apply (iter_advance_inPool net ones f).
Qed.

Lemma initialize_cursorInPool h cidr lruSize h0 :
  initialize h cidr lruSize = (h0, None) ->
  exists net ones f,
    v4Pool net ones f /\ cursorInPool net h0 /\
    log2AtLeast lruSize (rooms net) = false /\
    domainToIP h0 = Some (Cache.NewLru lruSize).
Proof.
  intros H. apply initialize_pool in H.
  destruct H as [net [ones [f [Hp [Hlog ->]]]]].
  exists net, ones, f. split; [exact Hp|]. split; [|auto].
  split; [reflexivity|]. eexists. split; [reflexivity|].
  apply (pool_bounds net ones f Hp).
Qed.

Lemma be4_SetBytes l :
  length l = 4%nat -> Forall isByte l -> be4 (BigInt.SetBytes l) = l.
Proof.
  intros Hl Hb. apply SetBytes_inj; auto using be4_bytes.
  apply SetBytes_be4. now apply SetBytes_four.
Qed.

Lemma IPAddress_be4 x : Net.IPAddress (be4 x) = Net.ipv4Address (be4 x).
Proof. reflexivity. Qed.

Lemma candidate_leading net ones f x :
  v4Pool net ones f -> 2 ^ 24 <= poolBase net -> inPool net x ->
  Net.IPAddress (BigInt.Bytes x) = Net.ipv4Address (be4 x).
Proof.
  intros Hp Hlead Hin. destruct (pool_bounds net ones f Hp) as [_ [_ [Htop _]]].
  unfold inPool in Hin. rewrite Bytes_be4 by lia. apply IPAddress_be4.
Qed.

Lemma base_address net ones f :
  v4Pool net ones f -> be4 (poolBase net) = GoNet.net_IP net.
Proof.
  intros [Ho [Hl [Hf ->]]]. unfold poolBase. cbn [GoNet.net_IP].
  destruct (cidrMask_facts ones Ho) as [Hml [Hmb _]].
  apply be4_SetBytes.
  - rewrite andBytes_length; congruence.
  - now apply andBytes_bytes.
Qed.


(** ** Pools whose first byte is not zero *)

Lemma addressesInPool_step net ones f fuel h d ips h' :
  v4Pool net ones f -> 2 ^ 24 <= poolBase net ->
  cursorInPool net h -> addressesInPool net h ->
  GetFakeIPForDomain fuel h d = Done (ips, h') -> addressesInPool net h'.
Proof.
  intros Hp Hlead [Hr [c [Hc Hin]]] Ha H a.
  apply GetFakeIPForDomain_allocated in H.
  unfold addressesInPool, liveAddresses, live in *.
  destruct H as [cache v Hd Hl Hnil | cache next net' ip next' Hd Hl Hn Hr' Hloop];
    rewrite Hd in Ha; simpl.
  - intros [<-|Hin'].
    + apply Ha. apply lookup_In in Hl. apply in_map_iff. now exists (d, v).
    + apply Ha. eapply In_values_removeKey; eauto.
  - rewrite Hr in Hr'. injection Hr' as <-.
    rewrite Hc in Hn. injection Hn as <-.
    intros [<-|Hin'].
    + apply allocLoop_free in Hloop. destruct Hloop as [_ [i [_ [-> _]]]].
      exists (Nat.iter i (advance net) c).
      assert (inPool net (Nat.iter i (advance net) c))
        by now apply (iter_advance_inPool net ones f).
      split; [assumption|]. now apply (candidate_leading net ones f).
    + apply Ha.
      destruct (Cache.capacity cache <=? Z.of_nat (length (Cache.entries cache)));
        [|exact Hin'].
      rewrite removelast_map in Hin'.
      now apply (removelast_incl (map snd (Cache.entries cache))).
Qed.


Lemma sound_step net ones f cap fuel h d ips h' :
  v4Pool net ones f -> 2 ^ 24 <= poolBase net -> 0 < cap ->
  sound net cap h -> GetFakeIPForDomain fuel h d = Done (ips, h') ->
  sound net cap h'.
Proof.
  intros Hp Hlead Hcap [H1 H2 H3 H4] H. constructor.
  - eapply cursorInPool_step; eauto.
  - eapply addressesInPool_step; eauto.
  - eapply distinctPairs_step; eauto.
  - eapply withinCapacity_step; eauto.
Qed.

Lemma initialize_sound conf cidr lruSize h0 fuel calls replies h :
  0 < lruSize ->
  initialize (blank conf) cidr lruSize = (h0, None) ->
  run fuel h0 calls = Done (replies, h) ->
  exists net ones f,
    v4Pool net ones f /\ ipRange h0 = Some net /\ lruSize < poolSize net /\
    (2 ^ 24 <= poolBase net -> sound net lruSize h).
Proof.
  intros Hcap Hinit Hrun.
  destruct (initialize_cursorInPool _ _ _ _ Hinit)
    as [net [ones [f [Hp [Hc0 [Hlog Hd0]]]]]].
  exists net, ones, f. split; [exact Hp|]. split; [apply Hc0|]. split.
  - unfold poolSize. unfold log2AtLeast in Hlog.
    apply andb_false_iff in Hlog.
    destruct Hlog as [E|E]; [apply Z.ltb_ge in E | apply Z.leb_gt in E]; lia.
  - intros Hlead.
    eapply run_invariant with (P := sound net lruSize); [| |exact Hrun].
    + intros; eapply sound_step; eauto.
    + constructor.
      * exact Hc0.
      * intros a. unfold liveAddresses, live. rewrite Hd0. simpl. tauto.
      * unfold distinctPairs, liveDomains, liveAddresses, live. rewrite Hd0.
        split; constructor.
      * exists (Cache.NewLru lruSize). split; [exact Hd0|]. simpl.
        split; [reflexivity | lia].
Qed.

(** A live pair is found again from its address. *)
Lemma sound_round_trip net ones f cap h d a :
  v4Pool net ones f -> sound net cap h ->
  In (d, a) (live h) -> GetDomainFromFakeDNS h a = Done d.
Proof.
  intros Hp [[Hr _] Ha [_ Hv] [cache [Hc _]]] Hin.
  destruct (Ha a) as [x [Hx ->]].
  { apply in_map_iff. now exists (d, a). }
  destruct (pool_bounds net ones f Hp) as [Hb0 [Hs0 [Htop _]]].
  assert (Hcont : GoNet.Contains net (be4 x) = true).
  { apply (pool_Contains_be4 net ones f Hp); [|exact Hx].
    unfold inPool in Hx. lia. }
  unfold GetDomainFromFakeDNS. cbn [Net.Family Net.IsIP negb Net.IP].
  rewrite Hr, Hcont, Hc. cbn [negb].
  unfold cacheGetKeyFromValue, Cache.GetKeyFromValue.
  unfold liveAddresses, live in *. rewrite Hc in *.
  now rewrite (rlookup_unique Net.Address_eq_dec _ _ _ Hv Hin).
Qed.

(** ** The walk of the cursor is a cycle through the range *)

Lemma mod_wrap x s :
  0 < s -> 0 <= x < 2 * s -> x mod s = if x <? s then x else x - s.
Proof.
  intros Hs Hx. destruct (x <? s) eqn:E.
  - apply Z.ltb_lt in E. apply Z.mod_small. lia.
  - apply Z.ltb_ge in E. symmetry.
    apply (Z.mod_unique x s 1 (x - s)); lia.
Qed.

Lemma iter_advance_cycle net ones f c i :
  v4Pool net ones f -> 2 ^ 24 <= poolBase net -> inPool net c ->
  Nat.iter i (advance net) c
  = poolBase net + (c - poolBase net + Z.of_nat i) mod poolSize net.
Proof.
  intros Hp Hlead Hc.
  destruct (pool_bounds net ones f Hp) as [Hb0 [Hs0 _]].
  induction i as [|i IH].
  - simpl. rewrite Z.add_0_r, Z.mod_small; unfold inPool in Hc; lia.
  - rewrite Nat.iter_succ.
    rewrite (advance_leading net ones f Hp _ Hlead)
      by now apply (iter_advance_inPool net ones f).
    rewrite IH. rewrite Nat2Z.inj_succ. unfold Z.succ.
    rewrite Z.add_assoc.
    rewrite <- (Z.add_mod_idemp_l (c - poolBase net + Z.of_nat i)) by lia.
    pose proof (Z.mod_pos_bound (c - poolBase net + Z.of_nat i)
                  (poolSize net) Hs0) as Hm.
    set (m := (c - poolBase net + Z.of_nat i) mod poolSize net) in *.
    rewrite (mod_wrap (m + 1)) by lia.
    destruct (poolBase net + m + 1 <? poolBase net + poolSize net) eqn:E1;
      destruct (m + 1 <? poolSize net) eqn:E2;
      try apply Z.ltb_lt in E1; try apply Z.ltb_ge in E1;
      try apply Z.ltb_lt in E2; try apply Z.ltb_ge in E2; lia.
Qed.

Lemma cycle_inj s o i j :
  0 < s -> 0 <= o < s -> 0 <= i < s -> 0 <= j < s ->
  (o + i) mod s = (o + j) mod s -> i = j.
Proof.
  intros Hs Ho Hi Hj. rewrite !mod_wrap by lia.
  destruct (o + i <? s) eqn:E1; destruct (o + j <? s) eqn:E2;
    try apply Z.ltb_lt in E1; try apply Z.ltb_ge in E1;
    try apply Z.ltb_lt in E2; try apply Z.ltb_ge in E2; lia.
Qed.

Lemma SetBytes_leading l :
  length l = 4%nat -> Forall isByte l -> 0 < nth 0 l 0 ->
  2 ^ 24 <= BigInt.SetBytes l.
Proof.
  intros Hl Hf Hn.
  destruct l as [|a [|b [|c [|d [|]]]]]; try discriminate.
  inversion Hf as [|? ? Ha Hf1]; inversion Hf1 as [|? ? Hb Hf2];
    inversion Hf2 as [|? ? Hc Hf3]; inversion Hf3 as [|? ? Hd _]; subst.
  unfold BigInt.SetBytes, isByte in *. simpl in *.
  change (2 ^ 24) with 16777216. lia.
Qed.

Lemma pool_leading net ones f :
  v4Pool net ones f -> 0 < nth 0 (GoNet.net_IP net) 0 ->
  2 ^ 24 <= poolBase net.
Proof.
  intros Hp Hn. pose proof Hp as [Ho [Hl [Hf Hnet]]].
  destruct (cidrMask_facts ones Ho) as [Hml [Hmb _]].
  unfold poolBase. apply SetBytes_leading; [| |exact Hn]; rewrite Hnet;
    cbn [GoNet.net_IP].
  - rewrite andBytes_length; congruence.
  - now apply andBytes_bytes.
Qed.

(** With fewer live addresses than the range has, a full round of the
    cursor meets a free one. *)
Lemma allocLoop_terminates net ones f cap h cache c :
  v4Pool net ones f -> 2 ^ 24 <= poolBase net ->
  sound net cap h -> cap < poolSize net ->
  domainToIP h = Some cache -> nextIP h = Some c ->
  allocLoop (Z.to_nat (poolSize net)) net cache c <> None.
Proof.
  intros Hp Hlead [[Hr [c' [Hc' Hin]]] _ _ [cache' [Hd' [_ Hlen]]]] Hcap Hd Hc Hnone.
  rewrite Hd in Hd'. injection Hd' as <-.
  rewrite Hc in Hc'. injection Hc' as <-.
  destruct (pool_bounds net ones f Hp) as [Hb0 [Hs0 [Htop _]]].
  pose proof (allocLoop_spin _ _ _ _ Hnone) as Hspin.
  set (P := Z.to_nat (poolSize net)) in *.
  set (g := fun i => Net.IPAddress (BigInt.Bytes (Nat.iter i (advance net) c))).
  assert (Hincl : incl (map g (seq 0 P)) (map snd (Cache.entries cache))).
  { intros a Ha. apply in_map_iff in Ha. destruct Ha as [i [<- Hi]].
    apply in_seq in Hi. apply Hspin. lia. }
  assert (Hnd : NoDup (map g (seq 0 P))).
  { apply NoDup_map_NoDup_ForallPairs; [|apply seq_NoDup].
    intros i j Hi Hj E. apply in_seq in Hi, Hj. unfold g in E.
    assert (Hxi : inPool net (Nat.iter i (advance net) c))
      by now apply (iter_advance_inPool net ones f).
    assert (Hxj : inPool net (Nat.iter j (advance net) c))
      by now apply (iter_advance_inPool net ones f).
    rewrite !(candidate_leading net ones f) in E by assumption.
    assert (E' : be4 (Nat.iter i (advance net) c)
                 = be4 (Nat.iter j (advance net) c)) by congruence.
    clear E. rename E' into E. apply be4_inj in E;
      [|unfold inPool in *; lia|unfold inPool in *; lia].
    rewrite !(iter_advance_cycle net ones f) in E by assumption.
    apply Z.add_cancel_l in E.
    apply cycle_inj in E; unfold inPool in *; lia. }
  pose proof (NoDup_incl_length Hnd Hincl) as Hle.
  rewrite !length_map, length_seq in Hle. lia.
Qed.

Lemma sound_hit_address net cap h cache d v cache' :
  sound net cap h -> domainToIP h = Some cache ->
  cacheGet cache d = (Some v, cache') ->
  exists x, v = Net.ipv4Address (be4 x).
Proof.
  intros [_ Ha _ _] Hd Hg. apply Get_hit in Hg. destruct Hg as [Hl _].
  apply lookup_In in Hl.
  destruct (Ha v) as [x [_ ->]]; [|eauto].
  unfold liveAddresses, live. rewrite Hd.
  apply in_map_iff. now exists (d, v).
Qed.

(** *** Calls return, on ranges whose base has a first byte other than zero *)

Lemma sound_call_returns net ones f cap h d :
  v4Pool net ones f -> 2 ^ 24 <= poolBase net -> cap < poolSize net ->
  sound net cap h ->
  exists ips h',
    GetFakeIPForDomain (Z.to_nat (poolSize net)) h d = Done (ips, h').
Proof.
  intros Hp Hlead Hlt Hsound.
  pose proof Hsound as [[Hr [c [Hc Hin]]] _ _ [cache [Hd _]]].
  pose proof (allocLoop_terminates net ones f cap h cache c
                Hp Hlead Hsound Hlt Hd Hc) as Hterm.
  unfold GetFakeIPForDomain. rewrite Hd.
  destruct (cacheGet cache d) as [[v|] cache'] eqn:Eg.
  - destruct (sound_hit_address _ _ _ _ _ _ _ Hsound Hd Eg) as [x ->]. eauto.
  - rewrite Hc, Hr.
    destruct (allocLoop (Z.to_nat (poolSize net)) net cache c) as [[ip next']|];
      [eauto | congruence].
Qed.

Lemma sound_run_returns net ones f cap :
  v4Pool net ones f -> 2 ^ 24 <= poolBase net ->
  0 < cap -> cap < poolSize net ->
  forall ds h,
    sound net cap h ->
    exists replies h',
      run (Z.to_nat (poolSize net)) h (map CallGetFakeIPForDomain ds)
      = Done (replies, h').
Proof.
  intros Hp Hlead Hpos Hlt.
  induction ds as [|d ds IH]; intros h Hsound; cbn [map run].
  - eauto.
  - destruct (sound_call_returns net ones f cap h d Hp Hlead Hlt Hsound)
      as [ips [h1 E]].
    rewrite E.
    destruct (IH h1) as [rs [h2 E2]].
    { eapply sound_step; eauto. }
    rewrite E2. eauto.
Qed.

(** C3. Capacity bound, for a positive capacity.  After [initialize],
    whatever the parser, and any sequence of [GetFakeIPForDomain] calls
    that has returned, the live domains are exactly those that the
    least-recently-used policy (by forward access) of the spec keeps, in
    the same order, and they are never more than the capacity.  A pair
    that a further call removes is the least recently used pair of a full
    cache, and afterwards neither a forward lookup of its domain nor a
    reverse lookup of its address finds anything.  On an IPv4 CIDR string
    whose range has a base address with a first byte other than zero the
    sequence of calls does return, each call within as many loop
    iterations as the range has addresses. *)
Theorem capacity_bound parse conf cidr lruSize h0 ds :
  0 < lruSize ->
  initializeWith parse (blank conf) cidr lruSize = (h0, None) ->
  (forall fuel replies h,
      run fuel h0 (map CallGetFakeIPForDomain ds) = Done (replies, h) ->
      liveDomains h = specLiveDomains lruSize ds /\
      Z.of_nat (length (live h)) <= lruSize /\
      forall d ips h' k v,
        GetFakeIPForDomain fuel h d = Done (ips, h') ->
        In (k, v) (live h) -> ~ In (k, v) (live h') ->
        Z.of_nat (length (live h)) = lruSize /\
        (k, v) = last (live h) (k, v) /\
        exists cache', domainToIP h' = Some cache' /\
          fst (cacheGet cache' k) = None /\
          cacheGetKeyFromValue cache' v = None) /\
  (forall net,
      parse cidr = GoNet.ParseCIDR cidr ->
      ipRange h0 = Some net ->
      0 < nth 0 (GoNet.net_IP net) 0 ->
      exists replies h,
        run (Z.to_nat (poolSize net)) h0 (map CallGetFakeIPForDomain ds)
        = Done (replies, h)).
Proof.
  intros Hpos Hinit. split.
  - intros fuel replies h Hrun.
    pose proof (initializeWith_ok _ _ _ _ _ Hinit) as [ipaddr [net [_ [_ Hh0]]]].
    assert (Hd : distinctPairs h).
    { eapply run_invariant with (P := distinctPairs); [| |exact Hrun].
      - intros; eapply distinctPairs_step; eauto.
      - subst h0. split; constructor. }
    assert (Hw : withinCapacity lruSize h).
    { eapply run_invariant with (P := withinCapacity lruSize); [| |exact Hrun].
      - intros; eapply withinCapacity_step; eauto.
      - subst h0. eexists. split; [reflexivity|]. simpl.
        split; [reflexivity|lia]. }
    split; [|split].
    + unfold specLiveDomains.
      erewrite run_allocations_domains; [| | |exact Hrun].
      * subst h0. reflexivity.
      * subst h0. reflexivity.
      * reflexivity.
    + destruct Hw as [cache [Hc [_ Hlen]]]. unfold live. now rewrite Hc.
    + intros d ips h' k v Hcall Hin Hout.
      destruct (evicted_pair _ _ _ _ _ _ _ Hd Hcall Hin Hout)
        as [Hlast [Hnk [Hnv [cache [Hc Hfull]]]]].
      destruct Hw as [cache0 [Hc0 [Hcap Hlen]]].
      rewrite Hc in Hc0. injection Hc0 as <-.
      split; [|split; [exact Hlast|]].
      * unfold live in *. rewrite Hc in *. lia.
      * apply GetFakeIPForDomain_allocated in Hcall.
        destruct (allocated_domains _ _ _ _ _ _ Hc Hcall)
          as [_ [cache' [Hc' _]]].
        exists cache'. split; [exact Hc'|].
        unfold liveDomains, liveAddresses, live in Hnk, Hnv.
        rewrite Hc' in Hnk, Hnv.
        split.
        -- unfold cacheGet, Cache.Get.
           now rewrite (lookup_not_In string_dec _ _ Hnk).
        -- unfold cacheGetKeyFromValue, Cache.GetKeyFromValue.
           now apply rlookup_None.
  - intros net Hparse Hnet Hfirst.
    assert (Hinit' : initialize (blank conf) cidr lruSize = (h0, None)).
    { unfold initialize. unfold initializeWith in *.
      now rewrite <- Hparse. }
    assert (Hrun0 : run 0 h0 [] = Done ([], h0)) by reflexivity.
    destruct (initialize_sound _ _ _ _ _ _ _ _ Hpos Hinit' Hrun0)
      as [net' [ones [f [Hp [Hr0 [Hlt Hsound]]]]]].
    rewrite Hnet in Hr0. injection Hr0 as <-.
    pose proof (pool_leading net ones f Hp Hfirst) as Hlead.
    apply (sound_run_returns net ones f lruSize Hp Hlead Hpos Hlt).
    now apply Hsound.
Qed.

Lemma capacity_bound_witness :
  (liveDomains (finalHolder (run 4 smallHolder evictingSession))
   = specLiveDomains 2 ["a.com"; "b.com"; "a.com"; "c.com"]%string /\
   Z.of_nat (length (live (finalHolder (run 4 smallHolder evictingSession))))
   <= 2) /\
  exists replies h,
    run (Z.to_nat (poolSize (GoNet.mkIPNet [240; 0; 0; 0] [255; 255; 255; 252])))
      smallHolder evictingSession
    = Done (replies, h).
Proof.
  assert (Hpos : 0 < 2) by lia.
  assert (Hinit : initializeWith GoNet.ParseCIDR (blank None) "240.0.0.0/30" 2
                  = (smallHolder, None)) by (vm_compute; reflexivity).
  pose proof (capacity_bound GoNet.ParseCIDR None "240.0.0.0/30" 2
                smallHolder ["a.com"; "b.com"; "a.com"; "c.com"]%string
                Hpos Hinit) as [Hsafe Hreturns].
  split.
  - assert (Hrun : run 4 smallHolder
                     (map CallGetFakeIPForDomain
                        ["a.com"; "b.com"; "a.com"; "c.com"]%string)
                   = Done (repliesOf (run 4 smallHolder evictingSession),
                           finalHolder (run 4 smallHolder evictingSession)))
      by (vm_compute; reflexivity).
    destruct (Hsafe _ _ _ Hrun) as [H1 [H2 _]].
    split; [exact H1 | exact H2].
  - apply (Hreturns (GoNet.mkIPNet [240; 0; 0; 0] [255; 255; 255; 252]));
      [reflexivity | vm_compute; reflexivity | vm_compute; reflexivity].
Defined.

(** [initialize] accepts the capacities zero and minus five on the pool
    "240.0.0.0/30".  With capacity zero an allocation leaves one live
    pair, which is more than the capacity; with capacity minus five the
    fresh holder has no live pair, which is more than the capacity as
    well. *)
Lemma capacity_exceeded :
  initialize (blank None) "240.0.0.0/30" 0 = (zeroCapacityHolder, None) /\
  (exists h1,
      (forall fuel,
          GetFakeIPForDomain (S fuel) zeroCapacityHolder "a.com"
          = Done ([Net.ipv4Address [240; 0; 0; 0]], h1)) /\
      (exists cache, domainToIP h1 = Some cache /\ Cache.capacity cache = 0) /\
      live h1 = [("a.com"%string, Net.ipv4Address [240; 0; 0; 0])] /\
      ~ Z.of_nat (length (live h1)) <= 0) /\
  initialize (blank None) "240.0.0.0/30" (-5)
  = (negativeCapacityHolder, None) /\
  domainToIP negativeCapacityHolder = Some (Cache.NewLru (-5)) /\
  live negativeCapacityHolder = [] /\
  ~ Z.of_nat (length (live negativeCapacityHolder)) <= -5.
Proof.
  split; [vm_compute; reflexivity|]. split.
  - eexists. split; [intros fuel; vm_compute; reflexivity|].
    split; [eexists; split; reflexivity|].
    split; [reflexivity|]. cbn. lia.
  - split; [vm_compute; reflexivity|]. split; [vm_compute; reflexivity|].
    split; [reflexivity|]. cbn. lia.
Qed.



(** C4, as the code has it.  For a holder initialized from an IPv4 CIDR
    string with a positive capacity, on a range whose base address has a
    first byte other than zero: after any sequence of calls, the loop of
    [GetFakeIPForDomain] finds a free address within as many iterations as
    the range has addresses, so that the call returns.  The code puts no
    bound of its own on the loop and has no failure path: within any
    number of iterations the call has either returned or is still
    looping, and more iterations do not change what it returns. *)
Theorem allocation_terminates conf cidr lruSize h0 net fuel calls replies h d :
  0 < lruSize ->
  initialize (blank conf) cidr lruSize = (h0, None) ->
  ipRange h0 = Some net ->
  0 < nth 0 (GoNet.net_IP net) 0 ->
  run fuel h0 calls = Done (replies, h) ->
  (exists ips h',
      GetFakeIPForDomain (Z.to_nat (poolSize net)) h d = Done (ips, h')) /\
  (forall n, GetFakeIPForDomain n h d <> Panic) /\
  (forall n extra ips h',
      GetFakeIPForDomain n h d = Done (ips, h') ->
      GetFakeIPForDomain (n + extra) h d = Done (ips, h')).
Proof.
  intros Hcap Hinit Hnet Hfirst Hrun.
  destruct (initialize_sound _ _ _ _ _ _ _ _ Hcap Hinit Hrun)
    as [net' [ones [f [Hp [Hr0 [Hlt Hsound]]]]]].
  rewrite Hnet in Hr0. injection Hr0 as <-.
  pose proof (pool_leading net ones f Hp Hfirst) as Hlead.
  specialize (Hsound Hlead).
  pose proof Hsound as [[Hr [c [Hc Hin]]] _ _ [cache [Hd _]]].
  assert (Hcall : forall n,
             GetFakeIPForDomain n h d
             = match cacheGet cache d with
               | (Some v, cache') =>
                   Done ([v], mkHolder (Some cache') (nextIP h) (ipRange h)
                                       (config h))
               | (None, _) =>
                   match allocLoop n net cache c with
                   | None => Spin
                   | Some (ip, next') =>
                       Done ([ip], mkHolder (Some (cachePut cache d ip))
                                            (Some next') (Some net) (config h))
                   end
               end).
  { intros n. unfold GetFakeIPForDomain. rewrite Hd.
    destruct (cacheGet cache d) as [[v|] cache'] eqn:Eg.
    - destruct (sound_hit_address _ _ _ _ _ _ _ Hsound Hd Eg) as [x ->].
      reflexivity.
    - now rewrite Hc, Hr. }
  split; [|split].
  - pose proof (allocLoop_terminates net ones f lruSize h cache c
                  Hp Hlead Hsound Hlt Hd Hc) as Hterm.
    rewrite Hcall.
    destruct (cacheGet cache d) as [[v|] cache']; [eauto|].
    destruct (allocLoop (Z.to_nat (poolSize net)) net cache c)
      as [[ip next']|]; [eauto | congruence].
  - intros n. rewrite Hcall.
    destruct (cacheGet cache d) as [[v|] cache']; [discriminate|].
    destruct (allocLoop n net cache c) as [[ip next']|]; discriminate.
  - intros n extra ips h'. rewrite !Hcall.
    destruct (cacheGet cache d) as [[v|] cache']; [auto|].
    destruct (allocLoop n net cache c) as [[ip next']|] eqn:E; [|discriminate].
    now rewrite (allocLoop_more _ extra _ _ _ _ E).
Qed.

(** On the pool "0.0.0.0/8" with capacity 2, well below its size, the
    cursor is zero, its bytes are the empty slice, and adding one gives one
    byte, which the range does not contain: the cursor goes back to zero
    and every candidate is the same nil address.  The first allocation
    takes it; the second one meets it at every turn and never leaves the
    loop, whatever the number of iterations. *)
Lemma allocation_loop_hangs :
  initialize (blank None) "0.0.0.0/8" 2 = (zeroPoolHolder, None) /\
  (exists net, ipRange zeroPoolHolder = Some net /\ 2 < poolSize net) /\
  GetFakeIPForDomain 1 zeroPoolHolder "a.com"
  = Done ([Net.nilAddress], stuckHolder) /\
  forall fuel, GetFakeIPForDomain fuel stuckHolder "b.com" = Spin.
Proof.
  split; [vm_compute; reflexivity|].
  split; [eexists; split; [vm_compute; reflexivity | vm_compute; reflexivity]|].
  split; [vm_compute; reflexivity|].
  assert (E : stuckHolder
              = mkHolder (Some (Cache.mkLru 2 [("a.com"%string, Net.nilAddress)]))
                  (Some 0) (Some (GoNet.mkIPNet [0; 0; 0; 0] [255; 0; 0; 0]))
                  None) by (vm_compute; reflexivity).
  rewrite E. intros fuel. unfold GetFakeIPForDomain.
  cbn [domainToIP nextIP ipRange].
  assert (Eg : cacheGet (Cache.mkLru 2 [("a.com"%string, Net.nilAddress)]) "b.com"
               = (None, Cache.mkLru 2 [("a.com"%string, Net.nilAddress)]))
    by (vm_compute; reflexivity).
  rewrite Eg.
  assert (Eloop : allocLoop fuel (GoNet.mkIPNet [0; 0; 0; 0] [255; 0; 0; 0])
                    (Cache.mkLru 2 [("a.com"%string, Net.nilAddress)]) 0 = None).
  { induction fuel as [|fuel IH]; [reflexivity|].
    cbn [allocLoop].
    assert (Ek : cacheGetKeyFromValue
                   (Cache.mkLru 2 [("a.com"%string, Net.nilAddress)])
                   (Net.IPAddress (BigInt.Bytes 0)) = Some "a.com"%string)
      by (vm_compute; reflexivity).
    assert (Ea : advance (GoNet.mkIPNet [0; 0; 0; 0] [255; 0; 0; 0]) 0 = 0)
      by (vm_compute; reflexivity).
    rewrite Ek, Ea. exact IH. }
  now rewrite Eloop.
Qed.

(** C2 at the pool "0.0.0.0/8": the address that [GetFakeIPForDomain]
    returns for "a.com" is the nil address, the mapping is live, and
    [GetDomainFromFakeDNS] on that address panics; no address at all is
    mapped back to "a.com". *)
Theorem round_trip_zero_pool :
  initialize (blank None) "0.0.0.0/8" 2 = (zeroPoolHolder, None) /\
  GetFakeIPForDomain 1 zeroPoolHolder "a.com"
  = Done ([Net.nilAddress], stuckHolder) /\
  live stuckHolder = [("a.com"%string, Net.nilAddress)] /\
  GetDomainFromFakeDNS stuckHolder Net.nilAddress = Panic /\
  forall a, GetDomainFromFakeDNS stuckHolder a <> Done "a.com"%string.
Proof.
  split; [vm_compute; reflexivity|].
  split; [vm_compute; reflexivity|].
  split; [vm_compute; reflexivity|].
  split; [vm_compute; reflexivity|].
  assert (E : stuckHolder
              = mkHolder (Some (Cache.mkLru 2 [("a.com"%string, Net.nilAddress)]))
                  (Some 0) (Some (GoNet.mkIPNet [0; 0; 0; 0] [255; 0; 0; 0]))
                  None) by (vm_compute; reflexivity).
  rewrite E. intros a. unfold GetDomainFromFakeDNS.
  cbn [domainToIP nextIP ipRange].
  destruct a as [b|b|s|]; cbn [Net.Family Net.IsIP negb Net.IP];
    try discriminate.
  - destruct (GoNet.Contains _ b); cbn [negb]; [|discriminate].
    unfold cacheGetKeyFromValue, Cache.GetKeyFromValue. cbn [Cache.entries Cache.rlookup].
    destruct (Net.Address_eq_dec (Net.ipv4Address b) Net.nilAddress);
      discriminate.
  - destruct (GoNet.Contains _ b); cbn [negb]; [|discriminate].
    unfold cacheGetKeyFromValue, Cache.GetKeyFromValue. cbn [Cache.entries Cache.rlookup].
    destruct (Net.Address_eq_dec (Net.ipv6Address b) Net.nilAddress);
      discriminate.
Qed.

(** C9 at the pool "0.0.0.0/8": the first call for "a.com" returns the nil
    address and stores it for the domain; the same call made again finds
    the stored value and panics in the type assertion of the hit path, in
    place of returning once more what the first call returned. *)
Theorem forward_lookup_zero_pool :
  initialize (blank None) "0.0.0.0/8" 2 = (zeroPoolHolder, None) /\
  GetFakeIPForDomain 1 zeroPoolHolder "a.com"
  = Done ([Net.nilAddress], stuckHolder) /\
  liveDomains stuckHolder = ["a.com"%string] /\
  forall fuel, GetFakeIPForDomain fuel stuckHolder "a.com" = Panic.
Proof.
  split; [vm_compute; reflexivity|].
  split; [vm_compute; reflexivity|].
  split; [vm_compute; reflexivity|].
  intros fuel. vm_compute. reflexivity.
Qed.

(** X6. On a range whose base address has a first byte other than zero, the
    round trip holds: the address returned for a domain leads back to the
    domain, and so does the address of any pair that is still live. *)
Lemma round_trip_leading_byte conf cidr lruSize h0 net fuel calls replies h :
  0 < lruSize ->
  initialize (blank conf) cidr lruSize = (h0, None) ->
  ipRange h0 = Some net ->
  0 < nth 0 (GoNet.net_IP net) 0 ->
  run fuel h0 calls = Done (replies, h) ->
  (forall d a, In (d, a) (live h) -> GetDomainFromFakeDNS h a = Done d) /\
  (forall n d ips h',
      GetFakeIPForDomain n h d = Done (ips, h') ->
      exists a, ips = [a] /\ GetDomainFromFakeDNS h' a = Done d).
Proof.
  intros Hcap Hinit Hnet Hfirst Hrun.
  destruct (initialize_sound _ _ _ _ _ _ _ _ Hcap Hinit Hrun)
    as [net' [ones [f [Hp [Hr0 [Hlt Hsound]]]]]].
  rewrite Hnet in Hr0. injection Hr0 as <-.
  pose proof (pool_leading net ones f Hp Hfirst) as Hlead.
  specialize (Hsound Hlead). split.
  - intros d a. now apply (sound_round_trip net ones f lruSize).
  - intros n d ips h' Hcall.
    assert (Hs' : sound net lruSize h') by (eapply sound_step; eauto).
    destruct (returned_pair_live _ _ _ _ _ Hcall) as [a [-> Hin]].
    exists a. split; [reflexivity|].
    now apply (sound_round_trip net ones f lruSize).
Qed.

Lemma v4Pool_shape net ones f :
  v4Pool net ones f ->
  exists nn m, net = GoNet.mkIPNet nn m /\ length nn = 4%nat /\ length m = 4%nat.
Proof.
  intros [Ho [Hl [Hf Hnet]]].
  destruct (cidrMask_facts ones Ho) as [Hml _].
  eexists _, _. split; [exact Hnet|].
  split; [rewrite andBytes_length; congruence | exact Hml].
Qed.

(** An IPv6 address is outside every IPv4 range. *)
Lemma ipv6_outside_v4Pool net ones f b :
  v4Pool net ones f -> validAddress (Net.ipv6Address b) ->
  GoNet.Contains net b = false.
Proof.
  intros Hp [Hlen Ht4].
  destruct (v4Pool_shape net ones f Hp) as [nn [m [-> [Hnn Hm]]]].
  apply Contains_not_four; auto. lia.
Qed.

(** The range and the presence of a cache do not change. *)
Lemma run_keeps_range net fuel calls h0 replies h :
  ipRange h0 = Some net -> (exists cache, domainToIP h0 = Some cache) ->
  run fuel h0 calls = Done (replies, h) ->
  ipRange h = Some net /\ exists cache, domainToIP h = Some cache.
Proof.
  intros Hr Hc Hrun.
  eapply run_invariant
    with (P := fun h => ipRange h = Some net /\
                        exists cache, domainToIP h = Some cache);
    [| split; [exact Hr | exact Hc] | exact Hrun].
  intros h1 d ips h2 [Hr1 [cache Hc1]] Hcall.
  apply GetFakeIPForDomain_allocated in Hcall.
  destruct Hcall as [cache' v _ _ _ | cache' next net' ip next' _ _ _ Hr' _];
    cbn [ipRange domainToIP].
  - split; [exact Hr1 | eauto].
  - split; [congruence | eauto].
Qed.

(** C6, as the code has it.  After [initialize], whatever the parser and
    the range, and any sequence of calls: for an address that is not of an
    IP family (the code tests [IsIP], which holds of IPv4 and of IPv6
    addresses alike), or whose bytes the range does not contain,
    [GetDomainFromFakeDNS] returns the empty string, and it does so
    whatever stands in the place of the cache, a nil cache included, so
    the cache is not consulted.  For an IPv4 or IPv6 address inside the
    range it returns the domain of the live pair with that address, and
    the empty string when no live pair has it. *)
Theorem range_rejection parse conf cidr lruSize h0 fuel calls replies h :
  initializeWith parse (blank conf) cidr lruSize = (h0, None) ->
  run fuel h0 calls = Done (replies, h) ->
  exists net,
    ipRange h = Some net /\
    (forall a af,
        Net.Family a = Some af ->
        Net.IsIP af = false \/
        (exists b, Net.IP a = Some b /\ GoNet.Contains net b = false) ->
        GetDomainFromFakeDNS h a = Done ""%string /\
        forall cache,
          GetDomainFromFakeDNS
            (mkHolder cache (nextIP h) (ipRange h) (config h)) a
          = Done ""%string) /\
    (forall a b,
        Net.IP a = Some b -> GoNet.Contains net b = true ->
        (forall d, In (d, a) (live h) -> GetDomainFromFakeDNS h a = Done d) /\
        (~ In a (liveAddresses h) ->
         GetDomainFromFakeDNS h a = Done ""%string)).
Proof.
  intros Hinit Hrun.
  pose proof (initializeWith_ok _ _ _ _ _ Hinit) as [ipaddr [net [_ [_ Hh0]]]].
  assert (Hd : distinctPairs h).
  { eapply run_invariant with (P := distinctPairs); [| |exact Hrun].
    - intros; eapply distinctPairs_step; eauto.
    - subst h0. split; constructor. }
  destruct (run_keeps_range net fuel calls h0 replies h) as [Hr [cache Hcache]];
    [subst h0; reflexivity | subst h0; cbn [domainToIP]; eauto | exact Hrun |].
  destruct Hd as [_ Hv].
  exists net. split; [exact Hr|]. split.
  - intros a af Hfam Hout.
    assert (Hany : forall c,
               GetDomainFromFakeDNS (mkHolder c (nextIP h) (ipRange h) (config h)) a
               = Done ""%string).
    { intros c. unfold GetDomainFromFakeDNS. cbn [ipRange domainToIP].
      rewrite Hfam, Hr.
      destruct Hout as [Hip|[b [Hb Hcont]]].
      - now rewrite Hip.
      - rewrite Hb, Hcont. now destruct (Net.IsIP af). }
    split; [|exact Hany].
    rewrite <- (Hany (domainToIP h)). now destruct h.
  - intros a b Hb Hcont.
    assert (Hcall : GetDomainFromFakeDNS h a
                    = match Cache.rlookup Net.Address_eq_dec a (live h) with
                      | Some k => Done k
                      | None => Done ""%string
                      end).
    { unfold GetDomainFromFakeDNS, live. rewrite Hr, Hb, Hcont, Hcache.
      destruct a as [x|x|s|]; try discriminate; reflexivity. }
    rewrite Hcall. split.
    + intros d Hin.
      now rewrite (rlookup_unique Net.Address_eq_dec _ _ _ Hv Hin).
    + intros Hn. apply (rlookup_None Net.Address_eq_dec) in Hn. now rewrite Hn.
Qed.

(** On the IPv6 range "fd00::/8" the first address given out is the IPv6
    address fd00::, which is not of the IPv4 family, and
    [GetDomainFromFakeDNS] maps it back to its domain. *)
Lemma ipv6_address_found :
  exists h0 h1,
    initializeWith parseWithFd00 (blank None) "fd00::/8" 2 = (h0, None) /\
    GetFakeIPForDomain 1 h0 "a.com" = Done ([Net.ipv6Address fd00], h1) /\
    Net.Family (Net.ipv6Address fd00) = Some Net.AddressFamilyIPv6 /\
    Net.IsIPv4 Net.AddressFamilyIPv6 = false /\
    GetDomainFromFakeDNS h1 (Net.ipv6Address fd00) = Done "a.com"%string.
Proof.
  do 2 eexists.
  split; [vm_compute; reflexivity|].
  split; [vm_compute; reflexivity|].
  split; [reflexivity|]. split; [reflexivity|].
  vm_compute. reflexivity.
Qed.

(** C8. The cursor on a range whose base address has a zero first byte.
    "1.255.255.254/7" is accepted with capacity 2; its range is
    "0.0.0.0/7", with 2^25 addresses from zero, and the cursor starts at
    the written address, the last but one.  Two allocations give
    1.255.255.254 and 1.255.255.255; adding one then leaves the range and
    the cursor is reset to the base, the number zero.  The bytes of zero
    are the empty slice, which the range does not contain and which is no
    address: the third allocation gives the nil address where the base
    address 0.0.0.0 is due.  On "0.0.0.0/8" the cursor is in this state
    right after [initialize]. *)
Theorem wraparound_zero_base :
  initialize (blank None) "1.255.255.254/7" 2 = (lowPoolHolder, None) /\
  ipRange lowPoolHolder = Some lowPool /\
  nextIP lowPoolHolder = Some (2 ^ 25 - 2) /\
  poolBase lowPool = 0 /\ poolSize lowPool = 2 ^ 25 /\
  (forall fuel,
      repliesOf (run (S fuel) lowPoolHolder
                   (map CallGetFakeIPForDomain ["a.com"; "b.com"; "c.com"]%string))
      = [ReplyIPs [Net.ipv4Address [1; 255; 255; 254]];
         ReplyIPs [Net.ipv4Address [1; 255; 255; 255]];
         ReplyIPs [Net.nilAddress]]) /\
  nextIP (finalHolder (run 1 lowPoolHolder
                         (map CallGetFakeIPForDomain ["a.com"; "b.com"]%string)))
  = Some (poolBase lowPool) /\
  BigInt.Bytes (poolBase lowPool) = [] /\
  GoNet.Contains lowPool (BigInt.Bytes (poolBase lowPool)) = false /\
  Net.IPAddress (BigInt.Bytes (poolBase lowPool)) = Net.nilAddress /\
  Net.IPAddress (GoNet.net_IP lowPool) = Net.ipv4Address [0; 0; 0; 0] /\
  GoNet.Contains lowPool (GoNet.net_IP lowPool) = true /\
  (exists net,
      ipRange zeroPoolHolder = Some net /\
      nextIP zeroPoolHolder = Some (poolBase net) /\
      GoNet.Contains net (BigInt.Bytes (poolBase net)) = false /\
      forall fuel,
        repliesOf (run (S fuel) zeroPoolHolder [CallGetFakeIPForDomain "a.com"])
        = [ReplyIPs [Net.nilAddress]]).
Proof.
  split; [vm_compute; reflexivity|].
  split; [vm_compute; reflexivity|].
  split; [vm_compute; reflexivity|].
  split; [vm_compute; reflexivity|].
  split; [vm_compute; reflexivity|].
  split; [intros fuel; vm_compute; reflexivity|].
  split; [vm_compute; reflexivity|].
  split; [vm_compute; reflexivity|].
  split; [vm_compute; reflexivity|].
  split; [vm_compute; reflexivity|].
  split; [vm_compute; reflexivity|].
  split; [vm_compute; reflexivity|].
  eexists. split; [vm_compute; reflexivity|].
  split; [vm_compute; reflexivity|].
  split; [vm_compute; reflexivity|].
  intros fuel. vm_compute. reflexivity.
Qed.

(** ** The theorems at the small pool *)


Lemma allocation_terminates_witness :
  exists ips h',
    GetFakeIPForDomain
      (Z.to_nat (poolSize (GoNet.mkIPNet [240; 0; 0; 0] [255; 255; 255; 252])))
      (finalHolder (run 4 smallHolder wrapSession)) "e.com"
    = Done (ips, h').
Proof.
  apply (allocation_terminates None "240.0.0.0/30" 2 smallHolder
           (GoNet.mkIPNet [240; 0; 0; 0] [255; 255; 255; 252])
           4 wrapSession
           (repliesOf (run 4 smallHolder wrapSession))
           (finalHolder (run 4 smallHolder wrapSession)) "e.com");
    [lia | vm_compute; reflexivity | vm_compute; reflexivity
     | vm_compute; reflexivity | vm_compute; reflexivity].
Defined.

Lemma range_rejection_witness :
  exists net,
    ipRange (finalHolder (run 4 smallHolder smallSession)) = Some net /\
    (forall a af,
        Net.Family a = Some af ->
        Net.IsIP af = false \/
        (exists b, Net.IP a = Some b /\ GoNet.Contains net b = false) ->
        GetDomainFromFakeDNS (finalHolder (run 4 smallHolder smallSession)) a
        = Done ""%string /\
        forall cache,
          GetDomainFromFakeDNS
            (mkHolder cache
               (nextIP (finalHolder (run 4 smallHolder smallSession)))
               (ipRange (finalHolder (run 4 smallHolder smallSession)))
               (config (finalHolder (run 4 smallHolder smallSession)))) a
          = Done ""%string) /\
    (forall a b,
        Net.IP a = Some b -> GoNet.Contains net b = true ->
        (forall d,
            In (d, a) (live (finalHolder (run 4 smallHolder smallSession))) ->
            GetDomainFromFakeDNS (finalHolder (run 4 smallHolder smallSession)) a
            = Done d) /\
        (~ In a (liveAddresses (finalHolder (run 4 smallHolder smallSession))) ->
         GetDomainFromFakeDNS (finalHolder (run 4 smallHolder smallSession)) a
         = Done ""%string)).
Proof.
  apply (range_rejection GoNet.ParseCIDR None "240.0.0.0/30" 2 smallHolder 4
           smallSession
           (repliesOf (run 4 smallHolder smallSession))
           (finalHolder (run 4 smallHolder smallSession)));
    vm_compute; reflexivity.
Defined.

(** ** Further properties of the holder *)

(** *** The life cycle *)




(** X2. A holder that is not initialized.  On a holder fresh from
    [NewFakeDNSHolderConfigOnly], on one that has been closed, and on a
    fresh one whose [initialize] returned an error, [GetFakeIPForDomain]
    panics for every domain, whatever the number of loop iterations; on a
    closed holder [GetDomainFromFakeDNS] returns the empty string for a
    domain address and panics for every other one. *)
Theorem uninitialized_holder_panics :
  (forall conf fuel d, GetFakeIPForDomain fuel (blank conf) d = Panic) /\
  (forall h fuel d, GetFakeIPForDomain fuel (fst (Close h)) d = Panic) /\
  (forall parse conf cidr lruSize fuel d,
      snd (initializeWith parse (blank conf) cidr lruSize) <> None ->
      GetFakeIPForDomain fuel
        (fst (initializeWith parse (blank conf) cidr lruSize)) d = Panic) /\
  (forall h a,
      GetDomainFromFakeDNS (fst (Close h)) a
      = match a with
        | Net.domainAddress _ => Done ""%string
        | _ => Panic
        end).
Proof.
  split; [reflexivity|]. split; [reflexivity|]. split.
  - intros parse conf cidr lruSize fuel d.
    unfold initializeWith.
    destruct (parse cidr) as [[ipaddr net]|]; [|reflexivity].
    destruct (GoNet.Size (GoNet.net_Mask net)) as [o b].
    destruct (log2AtLeast lruSize (b - o)); [reflexivity|].
    intros H. now elim H.
  - intros h a. destruct a; reflexivity.
Qed.

Lemma uninitialized_holder_panics_witness :
  GetFakeIPForDomain 5
    (fst (initializeWith GoNet.ParseCIDR (blank None) "240.0.0.0/30" 4)) "a.com"
  = Panic.
Proof.
  apply (proj1 (proj2 (proj2 uninitialized_holder_panics))
           GoNet.ParseCIDR None "240.0.0.0/30"%string 4 5%nat "a.com"%string).
  vm_compute. discriminate.
Defined.

(** *** One call *)

(** X3. A call that returns gives exactly one address; afterwards the
    domain and that address are the most recently used live pair, the
    domain occurs in no other live pair, and the range and the
    configuration of the holder are the ones it had. *)
Theorem call_returns_one_address fuel h d ips h' :
  GetFakeIPForDomain fuel h d = Done (ips, h') ->
  exists a rest,
    ips = [a] /\ live h' = (d, a) :: rest /\ ~ In d (map fst rest) /\
    ipRange h' = ipRange h /\ config h' = config h.
Proof.
  intros H. apply GetFakeIPForDomain_allocated in H.
  destruct H as [cache v Hc Hl Hnil | cache next net ip next' Hc Hl Hn Hr Ha].
  - eexists _, _. split; [reflexivity|]. split; [reflexivity|].
    split; [apply removeKey_absent | auto].
  - eexists _, _. split; [reflexivity|]. split; [reflexivity|].
    split; [|auto].
    apply lookup_None in Hl.
    destruct (Cache.capacity cache <=? _); [|exact Hl].
    rewrite removelast_map. intros Hin. apply Hl.
    now apply (removelast_incl (map fst (Cache.entries cache))).
Qed.

Lemma call_returns_one_address_witness :
  exists a rest,
    [Net.ipv4Address [240; 0; 0; 0]] = [a] /\
    live (finalHolder (run 1 smallHolder [CallGetFakeIPForDomain "a.com"]))
    = ("a.com"%string, a) :: rest /\
    ~ In "a.com"%string (map fst rest) /\
    ipRange (finalHolder (run 1 smallHolder [CallGetFakeIPForDomain "a.com"]))
    = ipRange smallHolder /\
    config (finalHolder (run 1 smallHolder [CallGetFakeIPForDomain "a.com"]))
    = config smallHolder.
Proof.
  apply (call_returns_one_address 1 smallHolder "a.com").
  vm_compute. reflexivity.
Defined.

(** X4. Hit or miss.  For a domain that is live, the call returns the
    address stored for it and does not move the cursor; for a domain that
    is not live, the address returned is one that no live domain had
    before the call. *)
Theorem hit_or_miss fuel h d a h' :
  GetFakeIPForDomain fuel h d = Done ([a], h') ->
  (In d (liveDomains h) -> In (d, a) (live h) /\ nextIP h' = nextIP h) /\
  (~ In d (liveDomains h) -> ~ In a (liveAddresses h)).
Proof.
  intros H. apply GetFakeIPForDomain_allocated in H.
  unfold liveDomains, liveAddresses, live.
  inversion H as [cache v Hc Hl Hnil E1 E2
                 | cache next net ip next' Hc Hl Hn Hr Hloop E1 E2];
    subst; rewrite Hc.
  - split.
    + intros _. split; [now apply lookup_In in Hl | reflexivity].
    + intros Hn. exfalso. apply Hn. apply lookup_In in Hl.
      apply in_map_iff. now exists (d, a).
  - split.
    + intros Hin. apply lookup_None in Hl. contradiction.
    + intros _. apply allocLoop_free in Hloop. destruct Hloop as [Hfree _].
      now apply rlookup_None in Hfree.
Qed.

Lemma hit_or_miss_witness :
  In ("a.com"%string, Net.ipv4Address [240; 0; 0; 0])
     (live (finalHolder (run 4 smallHolder
                           (map CallGetFakeIPForDomain ["a.com"; "b.com"]%string)))) /\
  nextIP (finalHolder (run 4 smallHolder
                         (map CallGetFakeIPForDomain
                            ["a.com"; "b.com"; "a.com"]%string)))
  = nextIP (finalHolder (run 4 smallHolder
                           (map CallGetFakeIPForDomain ["a.com"; "b.com"]%string))).
Proof.
  assert (Hcall : GetFakeIPForDomain 1
                    (finalHolder (run 4 smallHolder
                       (map CallGetFakeIPForDomain ["a.com"; "b.com"]%string)))
                    "a.com"
                  = Done ([Net.ipv4Address [240; 0; 0; 0]],
                          finalHolder (run 4 smallHolder
                            (map CallGetFakeIPForDomain
                               ["a.com"; "b.com"; "a.com"]%string))))
    by (vm_compute; reflexivity).
  apply (proj1 (hit_or_miss _ _ _ _ _ Hcall)).
  vm_compute. right. left. reflexivity.
Defined.

(** *** A call made again, and the way back *)

(** The two properties X5 and X6, proved above, on the small pool. *)
Lemma hit_after_call_witness :
  GetFakeIPForDomain 0
    (finalHolder (run 1 smallHolder [CallGetFakeIPForDomain "a.com"])) "a.com"
  = Done ([Net.ipv4Address [240; 0; 0; 0]],
          finalHolder (run 1 smallHolder [CallGetFakeIPForDomain "a.com"])).
Proof.
  apply (hit_after_call 1 0 smallHolder "a.com"
           (Net.ipv4Address [240; 0; 0; 0])
           (finalHolder (run 1 smallHolder [CallGetFakeIPForDomain "a.com"]))).
  - vm_compute. reflexivity.
  - discriminate.
Defined.

Lemma round_trip_leading_byte_witness :
  (forall d a,
      In (d, a) (live (finalHolder (run 4 smallHolder smallSession))) ->
      GetDomainFromFakeDNS (finalHolder (run 4 smallHolder smallSession)) a
      = Done d) /\
  (forall n d ips h',
      GetFakeIPForDomain n (finalHolder (run 4 smallHolder smallSession)) d
      = Done (ips, h') ->
      exists a, ips = [a] /\ GetDomainFromFakeDNS h' a = Done d).
Proof.
  apply (round_trip_leading_byte None "240.0.0.0/30" 2 smallHolder
           (GoNet.mkIPNet [240; 0; 0; 0] [255; 255; 255; 252])
           4 smallSession
           (repliesOf (run 4 smallHolder smallSession))
           (finalHolder (run 4 smallHolder smallSession)));
    [lia | vm_compute; reflexivity | vm_compute; reflexivity
     | vm_compute; reflexivity | vm_compute; reflexivity].
Defined.

(** *** What a call keeps *)

Lemma allocated_pairs fuel h d ips h' :
  allocated fuel h d ips h' ->
  forall p, In p (live h') ->
            In p (live h) \/
            (exists a, p = (d, a) /\ ips = [a] /\ ~ In d (liveDomains h)).
Proof.
  intros H p. unfold liveDomains, live.
  destruct H as [cache v Hc Hl Hnil | cache next net ip next' Hc Hl Hn Hr Ha];
    rewrite Hc; simpl.
  - intros [<-|Hin]; left.
    + now apply lookup_In in Hl.
    + destruct p as [k w]. apply removeKey_In in Hin. tauto.
  - intros [<-|Hin].
    + right. exists ip. apply lookup_None in Hl. auto.
    + left. destruct (Cache.capacity cache <=? _); [|exact Hin].
      now apply removelast_incl.
Qed.

(** X7. What a call keeps, after [initialize] (whatever the parser) and
    any sequence of calls.  A domain that is live before and after a call
    has the same address before and after.  A call for a live domain
    keeps every pair: the live pairs afterwards are those before, as many
    as before, and only their order can differ. *)
Theorem addresses_are_stable parse conf cidr lruSize h0 fuel calls replies h
        n d ips h' :
  initializeWith parse (blank conf) cidr lruSize = (h0, None) ->
  run fuel h0 calls = Done (replies, h) ->
  GetFakeIPForDomain n h d = Done (ips, h') ->
  (forall d' a1 a2,
      In (d', a1) (live h) -> In (d', a2) (live h') -> a1 = a2) /\
  (In d (liveDomains h) ->
   (forall p, In p (live h') <-> In p (live h)) /\
   length (live h') = length (live h)).
Proof.
  intros Hinit Hrun Hcall.
  pose proof (initializeWith_ok _ _ _ _ _ Hinit) as [ipaddr [net [_ [_ Hh0]]]].
  assert (Hd : distinctPairs h).
  { eapply run_invariant with (P := distinctPairs); [| |exact Hrun].
    - intros; eapply distinctPairs_step; eauto.
    - subst h0. split; constructor. }
  assert (Hd' : distinctPairs h') by (eapply distinctPairs_step; eauto).
  pose proof (GetFakeIPForDomain_allocated _ _ _ _ _ Hcall) as Hal.
  destruct Hd as [Hk Hv]. destruct Hd' as [Hk' Hv'].
  unfold liveDomains in Hk, Hk'.
  split.
  - intros d' a1 a2 H1 H2.
    destruct (allocated_pairs _ _ _ _ _ Hal _ H2) as [Hold|[a [E [_ Hnew]]]].
    + exact (NoDup_keys_unique _ _ _ _ Hk H1 Hold).
    + injection E as -> ->. exfalso. apply Hnew.
      unfold liveDomains. apply in_map_iff. now exists (d, a1).
  - intros Hlive.
    assert (Hincl : forall p, In p (live h') -> In p (live h)).
    { intros p Hp.
      destruct (allocated_pairs _ _ _ _ _ Hal _ Hp) as [Hold|[a [_ [_ Hnew]]]];
        [exact Hold | contradiction]. }
    assert (Hback : forall p, In p (live h) -> In p (live h')).
    { intros [k w] Hp. unfold liveDomains, live in *.
      destruct Hal as [cache v Hc Hl Hnil | cache next net' ip next' Hc Hl _ _ _];
        rewrite Hc in *.
      - simpl. apply lookup_In in Hl.
        destruct (string_dec k d) as [->|Hne].
        + left. f_equal. exact (NoDup_keys_unique _ _ _ _ Hk Hl Hp).
        + right. apply removeKey_In. auto.
      - apply lookup_None in Hl. contradiction. }
    split; [intros p; split; auto|].
    apply Nat.le_antisymm; apply NoDup_incl_length.
    + apply (NoDup_map_inv fst). exact Hk'.
    + exact Hincl.
    + apply (NoDup_map_inv fst). exact Hk.
    + exact Hback.
Qed.

Lemma addresses_are_stable_witness :
  (forall p,
      In p (live (finalHolder
                    (run 4 smallHolder
                       (smallSession ++ [CallGetFakeIPForDomain "a.com"])))) <->
      In p (live (finalHolder (run 4 smallHolder smallSession)))) /\
  length (live (finalHolder
                  (run 4 smallHolder
                     (smallSession ++ [CallGetFakeIPForDomain "a.com"]))))
  = length (live (finalHolder (run 4 smallHolder smallSession))).
Proof.
  assert (H1 : initializeWith GoNet.ParseCIDR (blank None) "240.0.0.0/30" 2
               = (smallHolder, None)) by (vm_compute; reflexivity).
  assert (H2 : run 4 smallHolder smallSession
               = Done (repliesOf (run 4 smallHolder smallSession),
                       finalHolder (run 4 smallHolder smallSession)))
    by (vm_compute; reflexivity).
  assert (H3 : GetFakeIPForDomain 4
                 (finalHolder (run 4 smallHolder smallSession)) "a.com"
               = Done ([Net.ipv4Address [240; 0; 0; 0]],
                       finalHolder
                         (run 4 smallHolder
                            (smallSession ++ [CallGetFakeIPForDomain "a.com"]))))
    by (vm_compute; reflexivity).
  apply (proj2 (addresses_are_stable _ _ _ _ _ _ _ _ _ _ _ _ _ H1 H2 H3)).
  vm_compute. right. left. reflexivity.
Defined.

(** X8. What a reverse lookup finds.  Whatever the holder, a domain other
    than the empty string that [GetDomainFromFakeDNS] returns for an
    address is the domain of a live pair with that address, and the
    address is an IPv4 or IPv6 address that the range contains.  Right
    after [initialize] every lookup that returns gives the empty string. *)
Theorem reverse_lookup_sound :
  (forall h a d,
      GetDomainFromFakeDNS h a = Done d -> d <> ""%string ->
      In (d, a) (live h) /\
      exists net b, ipRange h = Some net /\ Net.IP a = Some b /\
                    GoNet.Contains net b = true) /\
  (forall parse conf cidr lruSize h0 a d,
      initializeWith parse (blank conf) cidr lruSize = (h0, None) ->
      GetDomainFromFakeDNS h0 a = Done d -> d = ""%string).
Proof.
  assert (Hmain : forall h a d,
             GetDomainFromFakeDNS h a = Done d -> d <> ""%string ->
             In (d, a) (live h) /\
             exists net b, ipRange h = Some net /\ Net.IP a = Some b /\
                           GoNet.Contains net b = true).
  { intros h a d. unfold GetDomainFromFakeDNS, live.
    destruct (Net.Family a) as [af|]; [|discriminate].
    destruct (Net.IsIP af); cbn [negb]; [|intros H; injection H as <-; tauto].
    destruct (ipRange h) as [net|]; [|discriminate].
    destruct (Net.IP a) as [b|]; [|discriminate].
    destruct (GoNet.Contains net b) eqn:Ec; cbn [negb];
      [|intros H; injection H as <-; tauto].
    destruct (domainToIP h) as [cache|]; [|discriminate].
    destruct (cacheGetKeyFromValue cache a) as [k|] eqn:Ek;
      [|intros H; injection H as <-; tauto].
    intros H _. injection H as <-. split.
    - now apply rlookup_In in Ek.
    - eauto. }
  split; [exact Hmain|].
  intros parse conf cidr lruSize h0 a d Hinit Hcall.
  destruct (string_dec d "") as [E|Hne]; [exact E|].
  destruct (Hmain _ _ _ Hcall Hne) as [Hin _].
  apply initializeWith_ok in Hinit. destruct Hinit as [ip [net [_ [_ ->]]]].
  destruct Hin.
Qed.

Lemma reverse_lookup_sound_witness :
  In ("a.com"%string, Net.ipv4Address [240; 0; 0; 0])
     (live (finalHolder (run 4 smallHolder smallSession))).
Proof.
  apply (proj1 reverse_lookup_sound
           (finalHolder (run 4 smallHolder smallSession))
           (Net.ipv4Address [240; 0; 0; 0]) "a.com"%string).
  - vm_compute. reflexivity.
  - discriminate.
Defined.

(** *** The cursor *)

(** X9. One turn of the cursor by the numbers, for a holder initialized
    from an IPv4 CIDR string: from an address [x] of the range the cursor
    goes to [x + 1] when that is again an address of the range and is at
    least 2^24, and to the base of the range otherwise.  So below 2^24 - 1
    the cursor goes back to the base at every turn. *)
Theorem advance_by_numbers conf cidr lruSize h0 net x :
  initialize (blank conf) cidr lruSize = (h0, None) ->
  ipRange h0 = Some net ->
  inPool net x ->
  advance net x = turn net x /\
  (x + 1 < 2 ^ 24 -> advance net x = poolBase net).
Proof.
  intros Hinit Hnet Hin.
  destruct (initialize_cursorInPool _ _ _ _ Hinit)
    as [net' [ones [f [Hp [[Hr _] _]]]]].
  rewrite Hnet in Hr. injection Hr as <-.
  destruct (pool_bounds net ones f Hp) as [Hb0 [Hs0 [Htop _]]].
  assert (E : advance net x = turn net x).
  { unfold advance, turn. fold (poolBase net). unfold inPool in Hin.
    destruct (GoNet.Contains net (BigInt.Bytes (x + 1))) eqn:Ec; cbn [negb].
    - apply (pool_Contains_Bytes net ones f Hp) in Ec; [|lia].
      unfold inPool in Ec.
      assert (E1 : (2 ^ 24 <=? x + 1) = true) by (apply Z.leb_le; lia).
      assert (E2 : (x + 1 <? poolBase net + poolSize net) = true)
        by (apply Z.ltb_lt; lia).
      now rewrite E1, E2.
    - destruct ((2 ^ 24 <=? x + 1) && (x + 1 <? poolBase net + poolSize net))
        eqn:Et; [|reflexivity].
      apply andb_true_iff in Et. destruct Et as [E1 E2].
      apply Z.leb_le in E1. apply Z.ltb_lt in E2.
      assert (GoNet.Contains net (BigInt.Bytes (x + 1)) = true).
      { apply (pool_Contains_Bytes net ones f Hp); [lia|].
        unfold inPool. lia. }
      congruence. }
  split; [exact E|].
  intros Hlow. rewrite E. unfold turn.
  assert (E1 : (2 ^ 24 <=? x + 1) = false) by (apply Z.leb_gt; lia).
  now rewrite E1.
Qed.

Lemma advance_by_numbers_witness :
  advance (GoNet.mkIPNet [240; 0; 0; 0] [255; 255; 255; 252]) 4026531843
  = turn (GoNet.mkIPNet [240; 0; 0; 0] [255; 255; 255; 252]) 4026531843.
Proof.
  assert (H1 : initialize (blank None) "240.0.0.0/30" 2 = (smallHolder, None))
    by (vm_compute; reflexivity).
  assert (H2 : ipRange smallHolder
               = Some (GoNet.mkIPNet [240; 0; 0; 0] [255; 255; 255; 252]))
    by (vm_compute; reflexivity).
  assert (H3 : inPool (GoNet.mkIPNet [240; 0; 0; 0] [255; 255; 255; 252])
                 4026531843)
    by (vm_compute; split; [discriminate | reflexivity]).
  exact (proj1 (advance_by_numbers _ _ _ _ _ _ H1 H2 H3)).
Defined.

(** X10. The walk of the cursor is a cycle, for a holder initialized from
    an IPv4 CIDR string whose range has a base address with a first byte
    other than zero: after [k] turns from an address [c] of the range the
    cursor is [k] places further, counted around the range; it is back at
    [c] after as many turns as the range has addresses, and within that
    many turns it is never twice at the same address. *)
Theorem cursor_walk_is_a_cycle conf cidr lruSize h0 net c :
  initialize (blank conf) cidr lruSize = (h0, None) ->
  ipRange h0 = Some net ->
  0 < nth 0 (GoNet.net_IP net) 0 ->
  inPool net c ->
  (forall k,
      Nat.iter k (advance net) c
      = poolBase net + (c - poolBase net + Z.of_nat k) mod poolSize net) /\
  Nat.iter (Z.to_nat (poolSize net)) (advance net) c = c /\
  (forall i j,
      (i < Z.to_nat (poolSize net))%nat -> (j < Z.to_nat (poolSize net))%nat ->
      Nat.iter i (advance net) c = Nat.iter j (advance net) c -> i = j).
Proof.
  intros Hinit Hnet Hfirst Hin.
  destruct (initialize_cursorInPool _ _ _ _ Hinit)
    as [net' [ones [f [Hp [[Hr _] _]]]]].
  rewrite Hnet in Hr. injection Hr as <-.
  pose proof (pool_leading net ones f Hp Hfirst) as Hlead.
  destruct (pool_bounds net ones f Hp) as [Hb0 [Hs0 [Htop _]]].
  assert (Hk : forall k,
             Nat.iter k (advance net) c
             = poolBase net + (c - poolBase net + Z.of_nat k) mod poolSize net)
    by (intros k; now apply (iter_advance_cycle net ones f)).
  split; [exact Hk|]. unfold inPool in Hin. split.
  - rewrite Hk, Z2Nat.id by lia.
    replace (c - poolBase net + poolSize net)
      with (c - poolBase net + 1 * poolSize net) by lia.
    rewrite Z.mod_add by lia. rewrite Z.mod_small by lia. lia.
  - intros i j Hi Hj E. rewrite !Hk in E.
    apply Z.add_cancel_l in E. apply cycle_inj in E; lia.
Qed.

Lemma cursor_walk_is_a_cycle_witness :
  Nat.iter (Z.to_nat (poolSize (GoNet.mkIPNet [240; 0; 0; 0] [255; 255; 255; 252])))
    (advance (GoNet.mkIPNet [240; 0; 0; 0] [255; 255; 255; 252])) 4026531842
  = 4026531842.
Proof.
  assert (H1 : initialize (blank None) "240.0.0.0/30" 2 = (smallHolder, None))
    by (vm_compute; reflexivity).
  assert (H2 : ipRange smallHolder
               = Some (GoNet.mkIPNet [240; 0; 0; 0] [255; 255; 255; 252]))
    by (vm_compute; reflexivity).
  assert (H3 : 0 < nth 0 (GoNet.net_IP
                 (GoNet.mkIPNet [240; 0; 0; 0] [255; 255; 255; 252])) 0)
    by (vm_compute; reflexivity).
  assert (H4 : inPool (GoNet.mkIPNet [240; 0; 0; 0] [255; 255; 255; 252])
                 4026531842)
    by (vm_compute; split; [discriminate | reflexivity]).
  exact (proj1 (proj2 (cursor_walk_is_a_cycle _ _ _ _ _ _ H1 H2 H3 H4))).
Defined.

(** *** The addresses given out *)

(** X11. Every address given out is in the range, for a holder initialized
    from an IPv4 CIDR string whose range has a base address with a first
    byte other than zero: after any sequence of calls, what
    [GetFakeIPForDomain] returns is one IPv4 address of four bytes that
    the range contains. *)
Theorem addresses_in_range conf cidr lruSize h0 net fuel calls replies h
        n d ips h' :
  initialize (blank conf) cidr lruSize = (h0, None) ->
  ipRange h0 = Some net ->
  0 < nth 0 (GoNet.net_IP net) 0 ->
  run fuel h0 calls = Done (replies, h) ->
  GetFakeIPForDomain n h d = Done (ips, h') ->
  exists b, ips = [Net.ipv4Address b] /\ length b = 4%nat /\
            GoNet.Contains net b = true.
Proof.
  intros Hinit Hnet Hfirst Hrun Hcall.
  destruct (initialize_cursorInPool _ _ _ _ Hinit)
    as [net' [ones [f [Hp [Hc0 [_ Hd0]]]]]].
  pose proof Hc0 as [Hr0 _]. rewrite Hnet in Hr0. injection Hr0 as <-.
  pose proof (pool_leading net ones f Hp Hfirst) as Hlead.
  destruct (pool_bounds net ones f Hp) as [Hb0 [Hs0 [Htop _]]].
  assert (Hinv : cursorInPool net h /\ addressesInPool net h).
  { eapply run_invariant
      with (P := fun h => cursorInPool net h /\ addressesInPool net h);
      [| |exact Hrun].
    - intros h1 d1 ips1 h2 [H1 H2] Hc. split.
      + eapply cursorInPool_step; eauto.
      + eapply addressesInPool_step; eauto.
    - split; [exact Hc0|].
      intros a. unfold liveAddresses, live. rewrite Hd0. simpl. tauto. }
  destruct Hinv as [Hcur Haddr].
  assert (Haddr' : addressesInPool net h')
    by (eapply addressesInPool_step; eauto).
  destruct (returned_pair_live _ _ _ _ _ Hcall) as [a [-> Hin]].
  destruct (Haddr' a) as [x [Hx ->]].
  { unfold liveAddresses. apply in_map_iff. now exists (d, a). }
  exists (be4 x). split; [reflexivity|]. split; [reflexivity|].
  apply (pool_Contains_be4 net ones f Hp); [|exact Hx].
  unfold inPool in Hx. lia.
Qed.

Lemma addresses_in_range_witness :
  exists b,
    [Net.ipv4Address [240; 0; 0; 3]] = [Net.ipv4Address b] /\
    length b = 4%nat /\
    GoNet.Contains (GoNet.mkIPNet [240; 0; 0; 0] [255; 255; 255; 252]) b = true.
Proof.
  assert (H1 : initialize (blank None) "240.0.0.0/30" 2 = (smallHolder, None))
    by (vm_compute; reflexivity).
  assert (H2 : ipRange smallHolder
               = Some (GoNet.mkIPNet [240; 0; 0; 0] [255; 255; 255; 252]))
    by (vm_compute; reflexivity).
  assert (H3 : 0 < nth 0 (GoNet.net_IP
                 (GoNet.mkIPNet [240; 0; 0; 0] [255; 255; 255; 252])) 0)
    by (vm_compute; reflexivity).
  assert (H4 : run 4 smallHolder smallSession
               = Done (repliesOf (run 4 smallHolder smallSession),
                       finalHolder (run 4 smallHolder smallSession)))
    by (vm_compute; reflexivity).
  assert (H5 : GetFakeIPForDomain 4
                 (finalHolder (run 4 smallHolder smallSession)) "d.com"
               = Done ([Net.ipv4Address [240; 0; 0; 3]],
                       finalHolder
                         (run 4 smallHolder
                            (smallSession ++ [CallGetFakeIPForDomain "d.com"]))))
    by (vm_compute; reflexivity).
  exact (addresses_in_range _ _ _ _ _ _ _ _ _ _ _ _ _ H1 H2 H3 H4 H5).
Defined.

(** *** initialize on IPv4 pools *)

(** X12. The capacities that an IPv4 pool accepts.  When the CIDR string
    parses as an IPv4 prefix of length [ones], the range has [32 - ones]
    host bits and [2 ^ (32 - ones)] addresses, and [initialize] returns no
    error exactly for the capacities strictly below that number of
    addresses, zero and negative ones included. *)
Theorem ipv4_capacity_threshold h cidr ipaddr net :
  GoNet.ParseCIDR cidr = Some (ipaddr, net) ->
  exists ones,
    0 <= ones <= 32 /\
    GoNet.CIDRMask ones 32 = Some (GoNet.net_Mask net) /\
    rooms net = 32 - ones /\
    poolSize net = 2 ^ (32 - ones) /\
    forall lruSize,
      snd (initialize h cidr lruSize) = None <-> lruSize < poolSize net.
Proof.
  intros Hparse.
  destruct (ParseCIDR_shape _ _ _ Hparse) as [ones [f [Hp _]]].
  pose proof Hp as [Ho [_ [_ Hnet]]].
  exists ones. split; [exact Ho|]. split; [|split; [|split]].
  - rewrite Hnet. cbn [GoNet.net_Mask]. now apply CIDRMask_v4.
  - now apply (pool_rooms net ones f).
  - now apply (pool_size net ones f).
  - intros lruSize.
    destruct (pool_bounds net ones f Hp) as [_ [Hs0 _]].
    unfold initialize, initializeWith. rewrite Hparse.
    unfold poolSize, rooms in *.
    destruct (GoNet.Size (GoNet.net_Mask net)) as [o b].
    destruct (log2AtLeast lruSize (b - o)) eqn:E; cbn [snd].
    + apply log2AtLeast_spec in E. split; [discriminate | lia].
    + split; [|reflexivity]. intros _.
      unfold log2AtLeast in E. apply andb_false_iff in E.
      destruct E as [E|E]; [apply Z.ltb_ge in E | apply Z.leb_gt in E]; lia.
Qed.

Lemma ipv4_capacity_threshold_witness :
  exists ones,
    0 <= ones <= 32 /\
    GoNet.CIDRMask ones 32 = Some [255; 255; 255; 252] /\
    rooms (GoNet.mkIPNet [240; 0; 0; 0] [255; 255; 255; 252]) = 32 - ones /\
    poolSize (GoNet.mkIPNet [240; 0; 0; 0] [255; 255; 255; 252])
    = 2 ^ (32 - ones) /\
    forall lruSize,
      snd (initialize (blank None) "240.0.0.0/30" lruSize) = None <->
      lruSize < poolSize (GoNet.mkIPNet [240; 0; 0; 0] [255; 255; 255; 252]).
Proof.
  apply (ipv4_capacity_threshold (blank None) "240.0.0.0/30"
           (GoNet.v4InV6Prefix ++ [240; 0; 0; 0])
           (GoNet.mkIPNet [240; 0; 0; 0] [255; 255; 255; 252])).
  vm_compute. reflexivity.
Defined.

(** *** Allocation in sequence *)

(** One allocation of a domain that is not live, on a holder whose live
    addresses all lie below the cursor. *)
Lemma allocate_at_cursor net ones f (cache : Lru) x cf d :
  v4Pool net ones f -> 2 ^ 24 <= x -> inPool net x ->
  ~ In d (map fst (Cache.entries cache)) ->
  (forall v, In v (map snd (Cache.entries cache)) ->
             exists y, poolBase net <= y < x /\ v = Net.ipv4Address (be4 y)) ->
  GetFakeIPForDomain 1 (mkHolder (Some cache) (Some x) (Some net) cf) d
  = Done ([Net.ipv4Address (be4 x)],
          mkHolder (Some (cachePut cache d (Net.ipv4Address (be4 x))))
                   (Some (advance net x)) (Some net) cf).
Proof.
  intros Hp Hx Hin Hd Hv.
  destruct (pool_bounds net ones f Hp) as [Hb0 [Hs0 [Htop _]]].
  unfold inPool in Hin.
  unfold GetFakeIPForDomain. cbn [domainToIP nextIP ipRange config].
  unfold cacheGet, Cache.Get. rewrite (lookup_not_In string_dec _ _ Hd).
  cbn [allocLoop]. rewrite (Bytes_be4 x) by lia. rewrite IPAddress_be4.
  assert (Hfree : cacheGetKeyFromValue cache (Net.ipv4Address (be4 x)) = None).
  { apply rlookup_None. intros Hlive.
    destruct (Hv _ Hlive) as [y [Hy E]].
    assert (E' : be4 x = be4 y) by congruence.
    apply be4_inj in E'; lia. }
  now rewrite Hfree.
Qed.

Lemma run_allocation fuel h d rest :
  run fuel h (CallGetFakeIPForDomain d :: rest)
  = match GetFakeIPForDomain fuel h d with
    | Done (ips, h') =>
        match run fuel h' rest with
        | Done (rs, h2) => Done (ReplyIPs ips :: rs, h2)
        | Panic => Panic
        | Spin => Spin
        end
    | Panic => Panic
    | Spin => Spin
    end.
Proof. reflexivity. Qed.

Lemma sequential_run net ones f cf :
  v4Pool net ones f ->
  forall ds (cache : Lru) x,
    2 ^ 24 <= x -> poolBase net <= x ->
    x + Z.of_nat (length ds) <= poolBase net + poolSize net ->
    NoDup ds ->
    (forall k, In k (map fst (Cache.entries cache)) -> ~ In k ds) ->
    (forall v, In v (map snd (Cache.entries cache)) ->
               exists y, poolBase net <= y < x /\ v = Net.ipv4Address (be4 y)) ->
    exists h,
      run 1 (mkHolder (Some cache) (Some x) (Some net) cf)
          (map CallGetFakeIPForDomain ds)
      = Done (consecutive x (length ds), h).
Proof.
  intros Hp. destruct (pool_bounds net ones f Hp) as [Hb0 [Hs0 [Htop _]]].
  induction ds as [|d ds IH]; intros cache x Hx Hbase Hlen Hnd Hk Hv.
  - eexists. reflexivity.
  - cbn [length] in Hlen. rewrite Nat2Z.inj_succ in Hlen.
    inversion Hnd as [|? ? Hnotin Hnd']; subst.
    assert (Hin : inPool net x) by (unfold inPool; lia).
    assert (Hd : ~ In d (map fst (Cache.entries cache))).
    { intros Hlive. apply (Hk d Hlive). now left. }
    cbn [map length consecutive]. rewrite run_allocation.
    rewrite (allocate_at_cursor net ones f cache x cf d Hp Hx Hin Hd Hv).
    set (cache1 := cachePut cache d (Net.ipv4Address (be4 x))).
    assert (Hentries : forall p, In p (Cache.entries cache1) ->
                                 p = (d, Net.ipv4Address (be4 x)) \/
                                 In p (Cache.entries cache)).
    { unfold cache1, cachePut.
      rewrite Put_new by (now apply lookup_not_In).
      cbn [Cache.entries]. intros p [<-|Hp']; [now left|right].
      destruct (Cache.capacity cache <=? _); [|exact Hp'].
      now apply removelast_incl. }
    destruct ds as [|d2 ds].
    + eexists. reflexivity.
    + assert (Hadv : advance net x = x + 1).
      { unfold advance.
        assert (E : GoNet.Contains net (BigInt.Bytes (x + 1)) = true).
        { apply (pool_Contains_Bytes net ones f Hp); [lia|].
          cbn [length] in Hlen. rewrite Nat2Z.inj_succ in Hlen.
          unfold inPool. lia. }
        now rewrite E. }
      rewrite Hadv.
      destruct (IH cache1 (x + 1)) as [h Hrun]; try lia; try assumption.
      * intros k Hlive Hin2.
        apply in_map_iff in Hlive. destruct Hlive as [[k' v] [Ek Hp']].
        cbn [fst] in Ek. subst k'.
        destruct (Hentries _ Hp') as [E|Hold].
        -- injection E as -> _. contradiction.
        -- apply (Hk k); [|now right].
           apply in_map_iff. now exists (k, v).
      * intros v Hlive.
        apply in_map_iff in Hlive. destruct Hlive as [[k v'] [Ev Hp']].
        cbn [snd] in Ev. subst v'.
        destruct (Hentries _ Hp') as [E|Hold].
        -- injection E as _ ->. exists x. split; [lia | reflexivity].
        -- destruct (Hv v) as [y [Hy ->]].
           { apply in_map_iff. now exists (k, v). }
           exists y. split; [lia | reflexivity].
      * exists h. rewrite Hrun. reflexivity.
Qed.

(** X13. Allocation in sequence, from the address as written.  On a holder
    fresh from [initialize] on an IPv4 CIDR string whose written address
    has a first byte other than zero, new domains get the written address
    itself, then the next one, and so on, one loop iteration each, for as
    long as the walk has not reached the end of the range; this holds
    whatever the capacity, evictions included, and the first address is the
    written one even when that is not the first address of the range. *)
Theorem sequential_allocation conf cidr lruSize h0 ipaddr net f ds :
  initialize (blank conf) cidr lruSize = (h0, None) ->
  GoNet.ParseCIDR cidr = Some (ipaddr, net) ->
  GoNet.To4 ipaddr = Some f ->
  0 < nth 0 f 0 ->
  NoDup ds ->
  BigInt.SetBytes f + Z.of_nat (length ds) <= poolBase net + poolSize net ->
  be4 (BigInt.SetBytes f) = f /\
  exists h,
    run 1 h0 (map CallGetFakeIPForDomain ds)
    = Done (consecutive (BigInt.SetBytes f) (length ds), h).
Proof.
  intros Hinit Hparse Hto4 Hfirst Hnd Hlen.
  destruct (ParseCIDR_shape _ _ _ Hparse) as [ones [f' [Hp ->]]].
  pose proof Hp as [_ [Hl [Hf _]]].
  rewrite (To4_mapped f' Hl) in Hto4. injection Hto4 as <-.
  destruct (pool_bounds net ones f' Hp) as [Hb0 [Hs0 [Htop [_ Hin]]]].
  unfold inPool in Hin.
  split; [now apply be4_SetBytes|].
  assert (Hh0 : h0 = mkHolder (Some (Cache.NewLru lruSize))
                       (Some (BigInt.SetBytes f')) (Some net) (config (blank conf))).
  { unfold initialize, initializeWith in Hinit. rewrite Hparse in Hinit.
    rewrite (To4_mapped f' Hl) in Hinit.
    destruct (GoNet.Size (GoNet.net_Mask net)) as [o b].
    destruct (log2AtLeast lruSize (b - o)); [discriminate|].
    now injection Hinit as <-. }
  rewrite Hh0.
  assert (Hlead : 2 ^ 24 <= BigInt.SetBytes f') by now apply SetBytes_leading.
  apply (sequential_run net ones f' _ Hp ds (Cache.NewLru lruSize)
           (BigInt.SetBytes f') Hlead (proj1 Hin) Hlen Hnd).
  - cbn. tauto.
  - cbn. tauto.
Qed.

Lemma sequential_allocation_witness :
  be4 (BigInt.SetBytes [240; 0; 0; 5]) = [240; 0; 0; 5] /\
  exists h,
    run 1 offsetHolder (map CallGetFakeIPForDomain threeDomains)
    = Done (consecutive (BigInt.SetBytes [240; 0; 0; 5]) (length threeDomains), h).
Proof.
  assert (H1 : initialize (blank None) "240.0.0.5/29" 3 = (offsetHolder, None))
    by (vm_compute; reflexivity).
  assert (H2 : GoNet.ParseCIDR "240.0.0.5/29"
               = Some (GoNet.v4InV6Prefix ++ [240; 0; 0; 5],
                       GoNet.mkIPNet [240; 0; 0; 0] [255; 255; 255; 248]))
    by (vm_compute; reflexivity).
  assert (H3 : GoNet.To4 (GoNet.v4InV6Prefix ++ [240; 0; 0; 5])
               = Some [240; 0; 0; 5]) by (vm_compute; reflexivity).
  assert (H4 : 0 < nth 0 [240; 0; 0; 5] 0) by (vm_compute; reflexivity).
  assert (H5 : NoDup threeDomains).
  { unfold threeDomains. repeat constructor; simpl;
      intros H; repeat (destruct H as [H|H]; [discriminate|]); exact H. }
  assert (H6 : BigInt.SetBytes [240; 0; 0; 5] + Z.of_nat (length threeDomains)
               <= poolBase (GoNet.mkIPNet [240; 0; 0; 0] [255; 255; 255; 248])
                  + poolSize (GoNet.mkIPNet [240; 0; 0; 0] [255; 255; 255; 248]))
    by (vm_compute; discriminate).
  exact (sequential_allocation _ _ _ _ _ _ _ _ H1 H2 H3 H4 H5 H6).
Defined.

(** *** The default holder *)

(** X14. The holder of [NewFakeDNSHolder].  The call returns a holder and
    no error; the holder has no configuration, so [Start] on it panics.
    After any sequence of calls on it, [GetFakeIPForDomain] returns within
    2^24 loop iterations for every domain, and every address it returns is
    an IPv4 address whose first byte is 240. *)
Theorem default_holder :
  exists h0,
    NewFakeDNSHolder = (Some h0, None) /\
    Start h0 = Panic /\
    forall fuel calls replies h d,
      run fuel h0 calls = Done (replies, h) ->
      (exists ips h',
          GetFakeIPForDomain (Z.to_nat (2 ^ 24)) h d = Done (ips, h')) /\
      (forall n ips h',
          GetFakeIPForDomain n h d = Done (ips, h') ->
          exists b c e, ips = [Net.ipv4Address [240; b; c; e]]).
Proof.
  eexists. split; [vm_compute; reflexivity|]. split; [reflexivity|].
  intros fuel calls replies h d Hrun.
  set (h0 := mkHolder (Some (Cache.mkLru 65535 [])) (Some 4026531840)
               (Some (GoNet.mkIPNet [240; 0; 0; 0] [255; 0; 0; 0])) None) in *.
  set (net := GoNet.mkIPNet [240; 0; 0; 0] [255; 0; 0; 0]).
  assert (Hinit : initialize (blank None) "240.0.0.0/8" 65535 = (h0, None))
    by (vm_compute; reflexivity).
  assert (Hcap : 0 < 65535) by lia.
  destruct (initialize_sound _ _ _ _ _ _ _ _ Hcap Hinit Hrun)
    as [net' [ones [f [Hp [Hr0 [Hlt Hsound]]]]]].
  assert (Enet : net' = net)
    by (unfold h0 in Hr0; cbn in Hr0; injection Hr0 as <-; reflexivity).
  subst net'.
  assert (Hfirst : 0 < nth 0 (GoNet.net_IP net) 0) by (vm_compute; reflexivity).
  pose proof (pool_leading net ones f Hp Hfirst) as Hlead.
  specialize (Hsound Hlead).
  assert (Hsize : poolSize net = 2 ^ 24) by (vm_compute; reflexivity).
  assert (Hbase : poolBase net = 240 * 2 ^ 24) by (vm_compute; reflexivity).
  pose proof Hsound as [[Hr [c [Hc Hin]]] _ _ [cache [Hd _]]].
  split.
  - pose proof (allocLoop_terminates net ones f 65535 h cache c
                  Hp Hlead Hsound Hlt Hd Hc) as Hterm.
    rewrite Hsize in Hterm.
    unfold GetFakeIPForDomain. rewrite Hd.
    destruct (cacheGet cache d) as [[v|] cache'] eqn:Eg.
    + destruct (sound_hit_address _ _ _ _ _ _ _ Hsound Hd Eg) as [x ->]. eauto.
    + rewrite Hc, Hr.
      destruct (allocLoop (Z.to_nat (2 ^ 24)) net cache c) as [[ip next']|];
        [eauto | congruence].
  - intros n ips h' Hcall.
    assert (Hs' : sound net 65535 h') by (eapply sound_step; eauto).
    destruct (returned_pair_live _ _ _ _ _ Hcall) as [a [-> Hlive]].
    destruct (sound_addresses _ _ _ Hs' a) as [x [Hx ->]].
    { unfold liveAddresses. apply in_map_iff. now exists (d, a). }
    unfold inPool in Hx. rewrite Hsize, Hbase in Hx.
    exists ((x / 2 ^ 16) mod 256), ((x / 2 ^ 8) mod 256), (x mod 256).
    assert (E : x / 2 ^ 24 = 240).
    { symmetry. apply Z.div_unique with (r := x - 240 * 2 ^ 24); lia. }
    unfold be4. rewrite E. reflexivity.
Qed.

(** *** The loop takes the first free address *)

Lemma allocLoop_first fuel net cache next ip next' :
  allocLoop fuel net cache next = Some (ip, next') ->
  exists i, (i < fuel)%nat /\
    ip = Net.IPAddress (BigInt.Bytes (Nat.iter i (advance net) next)) /\
    next' = Nat.iter (S i) (advance net) next /\
    (forall j, (j < i)%nat ->
       In (Net.IPAddress (BigInt.Bytes (Nat.iter j (advance net) next)))
          (map snd (Cache.entries cache))) /\
    (forall fuel', (i < fuel')%nat ->
       allocLoop fuel' net cache next = Some (ip, next')).
Proof.
  revert next. induction fuel as [|fuel IH]; intros next H; [discriminate|].
  cbn [allocLoop] in H.
  destruct (cacheGetKeyFromValue cache
              (Net.IPAddress (BigInt.Bytes next))) as [k|] eqn:E.
  - destruct (IH _ H) as [i [Hi [Hip [Hn [Hbusy Hfuel]]]]].
    exists (S i). split; [lia|].
    split; [now rewrite Nat.iter_succ_r|].
    split; [now rewrite (Nat.iter_succ_r (S i))|]. split.
    + intros [|j] Hj.
      * apply rlookup_In in E. apply in_map_iff.
        now exists (k, Net.IPAddress (BigInt.Bytes next)).
      * rewrite Nat.iter_succ_r. apply Hbusy. lia.
    + intros [|fuel'] Hf; [lia|].
      cbn [allocLoop]. rewrite E. apply Hfuel. lia.
  - injection H as <- <-. exists O. split; [lia|].
    split; [reflexivity|]. split; [reflexivity|]. split.
    + intros j Hj. lia.
    + intros [|fuel'] Hf; [lia|]. cbn [allocLoop]. now rewrite E.
Qed.

(** X15. First fit.  A call for a domain that is not live gives the first
    address, in the order of the cursor's walk from where the cursor
    stands, that no live pair has: every position of the walk before it is
    the address of a live pair.  The cursor is left one turn past the
    address given, and the call returns the same address and the same
    holder for any number of loop iterations that reaches it. *)
Theorem first_free_address fuel h d a h' c net :
  GetFakeIPForDomain fuel h d = Done ([a], h') ->
  ~ In d (liveDomains h) ->
  nextIP h = Some c -> ipRange h = Some net ->
  exists i, (i < fuel)%nat /\
    a = Net.IPAddress (BigInt.Bytes (Nat.iter i (advance net) c)) /\
    ~ In a (liveAddresses h) /\
    (forall j, (j < i)%nat ->
       In (Net.IPAddress (BigInt.Bytes (Nat.iter j (advance net) c)))
          (liveAddresses h)) /\
    nextIP h' = Some (Nat.iter (S i) (advance net) c) /\
    (forall fuel', (i < fuel')%nat ->
       GetFakeIPForDomain fuel' h d = Done ([a], h')).
Proof.
  intros Hcall Hd Hc Hr.
  unfold liveDomains, liveAddresses, live in *.
  unfold GetFakeIPForDomain in *. rewrite Hc, Hr in *.
  destruct (domainToIP h) as [cache|]; [|discriminate].
  destruct (cacheGet cache d) as [[v|] cache'] eqn:Eg.
  - apply Get_hit in Eg. destruct Eg as [Hl _]. apply lookup_In in Hl.
    exfalso. apply Hd. apply in_map_iff. now exists (d, v).
  - destruct (allocLoop fuel net cache c) as [[ip next']|] eqn:El;
      [|discriminate].
    injection Hcall as -> <-.
    pose proof (allocLoop_free _ _ _ _ _ _ El) as [Hfree _].
    destruct (allocLoop_first _ _ _ _ _ _ El) as [i [Hi [Hip [Hn [Hbusy Hfuel]]]]].
    exists i. split; [exact Hi|]. split; [exact Hip|]. split.
    + now apply rlookup_None in Hfree.
    + split; [exact Hbusy|]. split; [cbn [nextIP]; now rewrite Hn|].
      intros fuel' Hf. now rewrite (Hfuel fuel' Hf).
Qed.

Lemma first_free_address_witness :
  exists i, (i < 4)%nat /\
    Net.ipv4Address [240; 0; 0; 1]
    = Net.IPAddress (BigInt.Bytes
        (Nat.iter i (advance (GoNet.mkIPNet [240; 0; 0; 0] [255; 255; 255; 252]))
           4026531840)) /\
    ~ In (Net.ipv4Address [240; 0; 0; 1])
         (liveAddresses (finalHolder (run 4 smallHolder skippingSession))) /\
    (forall j, (j < i)%nat ->
       In (Net.IPAddress (BigInt.Bytes
             (Nat.iter j (advance (GoNet.mkIPNet [240; 0; 0; 0] [255; 255; 255; 252]))
                4026531840)))
          (liveAddresses (finalHolder (run 4 smallHolder skippingSession)))) /\
    nextIP (finalHolder (run 4 smallHolder
                           (skippingSession ++ [CallGetFakeIPForDomain "e.com"])))
    = Some (Nat.iter (S i)
              (advance (GoNet.mkIPNet [240; 0; 0; 0] [255; 255; 255; 252]))
              4026531840) /\
    (forall fuel', (i < fuel')%nat ->
       GetFakeIPForDomain fuel'
         (finalHolder (run 4 smallHolder skippingSession)) "e.com"
       = Done ([Net.ipv4Address [240; 0; 0; 1]],
               finalHolder (run 4 smallHolder
                              (skippingSession ++ [CallGetFakeIPForDomain "e.com"])))).
Proof.
  assert (H1 : GetFakeIPForDomain 4
                 (finalHolder (run 4 smallHolder skippingSession)) "e.com"
               = Done ([Net.ipv4Address [240; 0; 0; 1]],
                       finalHolder
                         (run 4 smallHolder
                            (skippingSession ++ [CallGetFakeIPForDomain "e.com"]))))
    by (vm_compute; reflexivity).
  assert (H2 : ~ In "e.com"%string
                 (liveDomains (finalHolder (run 4 smallHolder skippingSession))))
    by (vm_compute; intros [H|[H|[]]]; discriminate).
  assert (H3 : nextIP (finalHolder (run 4 smallHolder skippingSession))
               = Some 4026531840) by (vm_compute; reflexivity).
  assert (H4 : ipRange (finalHolder (run 4 smallHolder skippingSession))
               = Some (GoNet.mkIPNet [240; 0; 0; 0] [255; 255; 255; 252]))
    by (vm_compute; reflexivity).
  exact (first_free_address _ _ _ _ _ _ _ H1 H2 H3 H4).
Defined.

(** ** The cursor on ranges whose base has a first byte other than zero *)

(** On such a range the cursor denotes an address at all times: after
    [initialize] on an IPv4 CIDR string and any sequence of calls, the
    bytes of the cursor are four, the range contains them, and they are
    the IPv4 address that the next allocation tries first.  The same holds
    after any number of turns, and the base of the range, to which the
    cursor is reset, has the bytes of the range's address. *)
Lemma cursor_denotes_address conf cidr lruSize h0 net fuel calls replies h :
  initialize (blank conf) cidr lruSize = (h0, None) ->
  ipRange h0 = Some net ->
  0 < nth 0 (GoNet.net_IP net) 0 ->
  run fuel h0 calls = Done (replies, h) ->
  exists c,
    nextIP h = Some c /\ ipRange h = Some net /\
    (forall i,
        let x := Nat.iter i (advance net) c in
        length (BigInt.Bytes x) = 4%nat /\
        GoNet.Contains net (BigInt.Bytes x) = true /\
        Net.IPAddress (BigInt.Bytes x) = Net.ipv4Address (BigInt.Bytes x)) /\
    BigInt.Bytes (poolBase net) = GoNet.net_IP net.
Proof.
  intros Hinit Hnet Hfirst Hrun.
  destruct (initialize_cursorInPool _ _ _ _ Hinit)
    as [net' [ones [f [Hp [Hc0 _]]]]].
  pose proof Hc0 as [Hr0 _]. rewrite Hnet in Hr0. injection Hr0 as <-.
  pose proof (pool_leading net ones f Hp Hfirst) as Hlead.
  destruct (pool_bounds net ones f Hp) as [Hb0 [Hs0 [Htop _]]].
  assert (Hc : cursorInPool net h).
  { eapply run_invariant with (P := cursorInPool net); [| exact Hc0 | exact Hrun].
    intros; eapply cursorInPool_step; eauto. }
  destruct Hc as [Hr [c [Hc Hin]]].
  exists c. split; [exact Hc|]. split; [exact Hr|]. split.
  - intros i x.
    assert (Hx : inPool net x) by now apply (iter_advance_inPool net ones f).
    assert (Hx' : 2 ^ 24 <= x < 2 ^ 32) by (unfold inPool in Hx; lia).
    rewrite (Bytes_be4 x Hx'). split; [apply be4_length|]. split.
    + apply (pool_Contains_be4 net ones f Hp); [lia | exact Hx].
    + apply IPAddress_be4.
  - rewrite Bytes_be4 by lia. now apply (base_address net ones f).
Qed.

Lemma turn_leading net ones f x :
  v4Pool net ones f -> 2 ^ 24 <= poolBase net -> inPool net x ->
  turn net x = advance net x.
Proof.
  intros Hp Hlead Hin.
  rewrite (advance_leading net ones f Hp x Hlead Hin).
  unfold turn. unfold inPool in Hin.
  assert (E : (2 ^ 24 <=? x + 1) = true) by (apply Z.leb_le; lia).
  now rewrite E.
Qed.

(** One allocation of a domain that is not live, when the address at the
    cursor is free. *)
Lemma allocate_free net ones f (cache : Lru) x cf d :
  v4Pool net ones f -> 2 ^ 24 <= poolBase net -> inPool net x ->
  ~ In d (map fst (Cache.entries cache)) ->
  ~ In (Net.ipv4Address (be4 x)) (map snd (Cache.entries cache)) ->
  GetFakeIPForDomain 1 (mkHolder (Some cache) (Some x) (Some net) cf) d
  = Done ([Net.ipv4Address (be4 x)],
          mkHolder (Some (cachePut cache d (Net.ipv4Address (be4 x))))
                   (Some (advance net x)) (Some net) cf).
Proof.
  intros Hp Hlead Hin Hd Hv.
  unfold GetFakeIPForDomain. cbn [domainToIP nextIP ipRange config].
  unfold cacheGet, Cache.Get. rewrite (lookup_not_In string_dec _ _ Hd).
  cbn [allocLoop].
  rewrite (candidate_leading net ones f x Hp Hlead Hin).
  assert (Hfree : cacheGetKeyFromValue cache (Net.ipv4Address (be4 x)) = None)
    by now apply rlookup_None.
  now rewrite Hfree.
Qed.

Lemma cyclic_run net ones f cf :
  v4Pool net ones f -> 2 ^ 24 <= poolBase net ->
  forall ds (cache : Lru) x,
    inPool net x ->
    Z.of_nat (length ds) <= poolSize net ->
    NoDup ds ->
    (forall k, In k (map fst (Cache.entries cache)) -> ~ In k ds) ->
    (forall j, (j < length ds)%nat ->
               ~ In (Net.ipv4Address (be4 (Nat.iter j (advance net) x)))
                    (map snd (Cache.entries cache))) ->
    exists h,
      run 1 (mkHolder (Some cache) (Some x) (Some net) cf)
          (map CallGetFakeIPForDomain ds)
      = Done (walk net x (length ds), h).
Proof.
  intros Hp Hlead.
  destruct (pool_bounds net ones f Hp) as [Hb0 [Hs0 [Htop _]]].
  induction ds as [|d ds IH]; intros cache x Hin Hlen Hnd Hk Hfree.
  - eexists. reflexivity.
  - cbn [length] in Hlen. rewrite Nat2Z.inj_succ in Hlen.
    inversion Hnd as [|? ? Hnotin Hnd']; subst.
    assert (Hd : ~ In d (map fst (Cache.entries cache))).
    { intros Hlive. apply (Hk d Hlive). now left. }
    assert (H0 : ~ In (Net.ipv4Address (be4 x)) (map snd (Cache.entries cache))).
    { apply (Hfree O). cbn [length]. lia. }
    cbn [map length walk]. rewrite run_allocation.
    rewrite (allocate_free net ones f cache x cf d Hp Hlead Hin Hd H0).
    rewrite (turn_leading net ones f x Hp Hlead Hin).
    set (cache1 := cachePut cache d (Net.ipv4Address (be4 x))).
    assert (Hentries : forall p, In p (Cache.entries cache1) ->
                                 p = (d, Net.ipv4Address (be4 x)) \/
                                 In p (Cache.entries cache)).
    { unfold cache1, cachePut.
      rewrite Put_new by (now apply lookup_not_In).
      cbn [Cache.entries]. intros p [<-|Hp']; [now left|right].
      destruct (Cache.capacity cache <=? _); [|exact Hp'].
      now apply removelast_incl. }
    destruct (IH cache1 (advance net x)) as [h Hrun].
    + now apply (advance_inPool net ones f Hp).
    + lia.
    + exact Hnd'.
    + intros k Hlive Hin2.
      apply in_map_iff in Hlive. destruct Hlive as [[k' v] [Ek Hp']].
      cbn [fst] in Ek. subst k'.
      destruct (Hentries _ Hp') as [E|Hold].
      * injection E as -> _. contradiction.
      * apply (Hk k); [|now right].
        apply in_map_iff. now exists (k, v).
    + intros j Hj Hlive. rewrite <- Nat.iter_succ_r in Hlive.
      apply in_map_iff in Hlive. destruct Hlive as [[k v] [Ev Hp']].
      cbn [snd] in Ev. subst v.
      destruct (Hentries _ Hp') as [E|Hold].
      * assert (E2 : be4 (Nat.iter (S j) (advance net) x) = be4 x)
          by congruence.
        clear E.
        assert (Hj' : inPool net (Nat.iter (S j) (advance net) x))
          by now apply (iter_advance_inPool net ones f).
        apply be4_inj in E2; [|unfold inPool in *; lia..].
        rewrite (iter_advance_cycle net ones f x (S j) Hp Hlead Hin) in E2.
        unfold inPool in Hin.
        assert (E' : (x - poolBase net + Z.of_nat (S j)) mod poolSize net
                     = (x - poolBase net + 0) mod poolSize net).
        { rewrite Z.add_0_r, (Z.mod_small (x - poolBase net)) by lia. lia. }
        apply cycle_inj in E'; lia.
      * apply (Hfree (S j)); [cbn [length]; lia|].
        apply in_map_iff. now exists (k, Net.ipv4Address
                                          (be4 (Nat.iter (S j) (advance net) x))).
    + exists h. rewrite Hrun. reflexivity.
Qed.

(** Repeated allocation continues from the base address.  On a holder
    fresh from [initialize] on an IPv4 CIDR string whose range has a base
    address with a first byte other than zero, new domains, as many as the
    range has addresses at most, get the addresses of the cursor's walk
    one after the other, one loop iteration each: from the written address
    up to the last address of the range and then from the base address
    on. *)
Lemma allocation_wraps_to_base conf cidr lruSize h0 ipaddr net f ds :
  initialize (blank conf) cidr lruSize = (h0, None) ->
  GoNet.ParseCIDR cidr = Some (ipaddr, net) ->
  GoNet.To4 ipaddr = Some f ->
  0 < nth 0 (GoNet.net_IP net) 0 ->
  NoDup ds ->
  Z.of_nat (length ds) <= poolSize net ->
  (exists h,
      run 1 h0 (map CallGetFakeIPForDomain ds)
      = Done (walk net (BigInt.SetBytes f) (length ds), h)) /\
  turn net (poolBase net + poolSize net - 1) = poolBase net /\
  be4 (poolBase net) = GoNet.net_IP net.
Proof.
  intros Hinit Hparse Hto4 Hfirst Hnd Hlen.
  destruct (ParseCIDR_shape _ _ _ Hparse) as [ones [f' [Hp ->]]].
  pose proof Hp as [_ [Hl [Hf _]]].
  rewrite (To4_mapped f' Hl) in Hto4. injection Hto4 as <-.
  pose proof (pool_leading net ones f' Hp Hfirst) as Hlead.
  destruct (pool_bounds net ones f' Hp) as [Hb0 [Hs0 [Htop [_ Hin]]]].
  split; [|split].
  - assert (Hh0 : h0 = mkHolder (Some (Cache.NewLru lruSize))
                         (Some (BigInt.SetBytes f')) (Some net)
                         (config (blank conf))).
    { unfold initialize, initializeWith in Hinit. rewrite Hparse in Hinit.
      rewrite (To4_mapped f' Hl) in Hinit.
      destruct (GoNet.Size (GoNet.net_Mask net)) as [o b].
      destruct (log2AtLeast lruSize (b - o)); [discriminate|].
      now injection Hinit as <-. }
    rewrite Hh0.
    apply (cyclic_run net ones f' _ Hp Hlead ds (Cache.NewLru lruSize)
             (BigInt.SetBytes f') Hin Hlen Hnd).
    + cbn. tauto.
    + cbn. tauto.
  - unfold turn.
    assert (E : (poolBase net + poolSize net - 1 + 1
                 <? poolBase net + poolSize net) = false)
      by (apply Z.ltb_ge; lia).
    rewrite E. now rewrite andb_false_r.
  - now apply (base_address net ones f').
Qed.

(** On the small pool written with its last address, three new domains
    get 240.0.0.3, 240.0.0.0 and 240.0.0.1. *)
Lemma allocation_wraps_at_top :
  exists h,
    run 1 topHolder (map CallGetFakeIPForDomain threeDomains)
    = Done ([ReplyIPs [Net.ipv4Address [240; 0; 0; 3]];
             ReplyIPs [Net.ipv4Address [240; 0; 0; 0]];
             ReplyIPs [Net.ipv4Address [240; 0; 0; 1]]], h).
Proof.
  assert (H1 : initialize (blank None) "240.0.0.3/30" 2 = (topHolder, None))
    by (vm_compute; reflexivity).
  assert (H2 : GoNet.ParseCIDR "240.0.0.3/30"
               = Some (GoNet.v4InV6Prefix ++ [240; 0; 0; 3],
                       GoNet.mkIPNet [240; 0; 0; 0] [255; 255; 255; 252]))
    by (vm_compute; reflexivity).
  assert (H3 : GoNet.To4 (GoNet.v4InV6Prefix ++ [240; 0; 0; 3])
               = Some [240; 0; 0; 3]) by (vm_compute; reflexivity).
  assert (H4 : 0 < nth 0 [240; 0; 0; 0] 0) by (vm_compute; reflexivity).
  assert (H5 : NoDup threeDomains).
  { unfold threeDomains. repeat constructor; simpl;
      intros H; repeat (destruct H as [H|H]; [discriminate|]); exact H. }
  assert (H6 : Z.of_nat (length threeDomains)
               <= poolSize (GoNet.mkIPNet [240; 0; 0; 0] [255; 255; 255; 252]))
    by (vm_compute; discriminate).
  exact (proj1 (allocation_wraps_to_base _ _ _ _ _ _ _ _ H1 H2 H3 H4 H5 H6)).
Qed.

